(** * visualEyes: the plotting module of the eye-tracking toolkit

    A shallow embedding of [src/visualeyes/core/plotting.py]
    ([plot_as_scatter], [overlay_aoi], [plot_heatmap]) together with the
    parts of pandas, numpy and matplotlib those three functions call, and
    the properties the specification states about them.

    Conventions.
    - A column value is a float64: NaN, an infinity, or a finite number.
      Finite numbers are rationals.  The comparisons the code makes are
      exactly the IEEE ones and the division of a screen dimension rounds
      to the nearest binary64; the arithmetic of the marker sizes is exact.
    - A DataFrame is a header of column names and a list of rows, each row
      carrying its index label.  Labels are integers.
    - A Python exception is a value of [exn]; a call that may raise returns
      a [result].
    - A matplotlib Axes is the list of drawing calls made on it, oldest
      first. *)

From Stdlib Require Import ZArith QArith Qround Qpower List String Ascii Bool.
From Stdlib Require Import Lia Lqa Sorted.
Import ListNotations.

Local Open Scope Z_scope.

(** ** Exceptions and results *)

Inductive exn : Type :=
| ValueError (msg : string)
| KeyError (msg : string)
| AttributeError (msg : string)
| TypeError (msg : string)
| ValidationError (msg : string)
| OSError (msg : string)
| MemoryError (msg : string)
| IndexError (msg : string)
| OverflowError (msg : string).

Inductive result (A : Type) : Type :=
| Ok (a : A)
| Raise (e : exn).

Arguments Ok {A} a.
Arguments Raise {A} e.

Definition bind {A B : Type} (r : result A) (k : A -> result B) : result B :=
  match r with
  | Ok a => k a
  | Raise e => Raise e
  end.

Notation "'let*' x ':=' r 'in' k" := (bind r (fun x => k))
  (at level 10, x pattern, r at level 100, k at level 200).

Definition succeeds {A : Type} (r : result A) : Prop :=
  exists a, r = Ok a.

Definition is_ok {A : Type} (r : result A) : bool :=
  match r with Ok _ => true | Raise _ => false end.

(** ** float64 values *)

Inductive f64 : Type :=
| NaN
| NegInf
| Fin (q : Q)
| PosInf.

Definition Qltb (p q : Q) : bool := negb (Qle_bool q p).

(** [a < b]; every comparison with NaN is false. *)
Definition f64_lt (a b : f64) : bool :=
  match a, b with
  | NaN, _ | _, NaN => false
  | _, NegInf => false
  | NegInf, _ => true
  | PosInf, _ => false
  | Fin _, PosInf => true
  | Fin p, Fin q => Qltb p q
  end.

(** [a <= b] *)
Definition f64_le (a b : f64) : bool :=
  match a, b with
  | NaN, _ | _, NaN => false
  | NegInf, _ => true
  | _, PosInf => true
  | _, NegInf => false
  | PosInf, _ => false
  | Fin p, Fin q => Qle_bool p q
  end.

Definition f64_gt (a b : f64) : bool := f64_lt b a.
Definition f64_ge (a b : f64) : bool := f64_le b a.

Definition is_nan (a : f64) : bool :=
  match a with NaN => true | _ => false end.

Definition is_finite (a : f64) : bool :=
  match a with Fin _ => true | _ => false end.

Definition f64_sub (a b : f64) : f64 :=
  match a, b with
  | NaN, _ | _, NaN => NaN
  | Fin p, Fin q => Fin (p - q)
  | PosInf, PosInf | NegInf, NegInf => NaN
  | PosInf, _ | _, NegInf => PosInf
  | NegInf, _ | _, PosInf => NegInf
  end.

Definition Qsign (q : Q) : Z := Z.sgn (Qnum q).

Definition f64_of_sign (s : Z) : f64 :=
  if s =? 0 then NaN else if s <? 0 then NegInf else PosInf.

Definition f64_sign (a : f64) : Z :=
  match a with
  | NaN => 0
  | NegInf => -1
  | PosInf => 1
  | Fin q => Qsign q
  end.

Definition f64_mul (a b : f64) : f64 :=
  match a, b with
  | NaN, _ | _, NaN => NaN
  | Fin p, Fin q => Fin (p * q)
  | _, _ => f64_of_sign (f64_sign a * f64_sign b)
  end.

(** numpy division: a finite number over zero is an infinity (or NaN for
    0/0) and a warning, never an exception. *)
Definition f64_div (a b : f64) : f64 :=
  match a, b with
  | NaN, _ | _, NaN => NaN
  | Fin p, Fin q =>
      if Qeq_bool q 0 then f64_of_sign (Qsign p) else Fin (p / q)
  | Fin _, _ => Fin 0
  | _, Fin q => f64_of_sign (f64_sign a * (if Qsign q <? 0 then -1 else 1))
  | _, _ => NaN
  end.

(** Python's [int(x)] on a number: truncation towards zero. *)
Definition py_int (q : Q) : Z := Z.quot (Qnum q) (Z.pos (Qden q)).

Definition round_half_even (q : Q) : Z :=
  let f := Qfloor q in
  let r := (q - inject_Z f)%Q in
  if Qltb r (1 # 2) then f
  else if Qltb (1 # 2) r then f + 1
  else if Z.even f then f else f + 1.

(** ** Python's true division *)

Definition pow2 (e : Z) : Q := Qpower 2 e.

(** floor(log2 q) of a positive rational. *)
Definition ilog2 (q : Q) : Z :=
  let g := Z.log2 (Qnum q) - Z.log2 (Z.pos (Qden q)) in
  if Qle_bool (pow2 g) q then g else g - 1.

(** The exponent of the last place of the binary64 nearest to a positive
    [q]: 52 places below the leading bit of [q], and not below 2^-1074, the
    last place of the subnormal numbers. *)
Definition ulp_exponent (q : Q) : Z := Z.max (ilog2 q - 52) (-1074).

(** A positive rational rounded to the nearest binary64, ties to even;
    [None] when the rounded value is 2^1024 or more. *)
Definition round_binary64_pos (q : Q) : option Q :=
  let e := ulp_exponent q in
  let r := (inject_Z (round_half_even (q / pow2 e)) * pow2 e)%Q in
  if Qle_bool (pow2 1024) r then None else Some r.

Definition round_binary64 (q : Q) : option Q :=
  match Qnum q with
  | Z0 => Some 0%Q
  | Zpos _ => round_binary64_pos q
  | Zneg _ => option_map Qopp (round_binary64_pos (- q))
  end.

(** [a / b] for a number [a] and a whole number [b <> 0]: the binary64
    nearest to the quotient, whether [a] is a float or an int.  A quotient
    beyond the range of a float can only come from an int, and Python
    raises OverflowError for it. *)
Definition py_truediv (a b : Q) : result Q :=
  match round_binary64 (a / b) with
  | Some r => Ok r
  | None => Raise (OverflowError "integer division result too large for a float")
  end.

(** [round(x, 2)] *)
Definition py_round2 (a : f64) : f64 :=
  match a with
  | Fin q => Fin (inject_Z (round_half_even (q * 100)) / 100)
  | _ => a
  end.

(** Python's built-in [max] over a list: the first element is the running
    maximum and a later element replaces it when it compares greater; on an
    empty list it raises ValueError. *)
Definition py_max (l : list f64) : result f64 :=
  match l with
  | [] => Raise (ValueError "max() arg is an empty sequence")
  | v :: tl =>
      Ok (fold_left (fun best item => if f64_gt item best then item else best)
                    tl v)
  end.

(** ** pandas: DataFrame *)

Definition label := Z.

Record DataFrame : Type := mkDataFrame {
  columns : list string;
  rows : list (label * list f64)
}.

Definition index (df : DataFrame) : list label := map fst (rows df).

Fixpoint col_pos (name : string) (cols : list string) : option nat :=
  match cols with
  | [] => None
  | c :: tl =>
      if String.eqb name c then Some O
      else option_map S (col_pos name tl)
  end.

(** ['name' in df.columns] *)
Definition has_col (df : DataFrame) (name : string) : bool :=
  match col_pos name (columns df) with Some _ => true | None => false end.

(** The cell of a row under a column position; a missing cell is NaN. *)
Definition cell (i : nat) (r : label * list f64) : f64 := nth i (snd r) NaN.

(** [df[name]]: the column as a sequence, KeyError when it is absent. *)
Definition getcol (df : DataFrame) (name : string) : result (list f64) :=
  match col_pos name (columns df) with
  | Some i => Ok (map (cell i) (rows df))
  | None => Raise (KeyError name)
  end.

(** [series[name]] for one row of [df]. *)
Definition getcell (df : DataFrame) (name : string) (r : label * list f64)
  : result f64 :=
  match col_pos name (columns df) with
  | Some i => Ok (cell i r)
  | None => Raise (KeyError name)
  end.

Definition mem_label (l : label) (ls : list label) : bool :=
  existsb (Z.eqb l) ls.

(** [df.drop(index=labels)]: the argument is a list of index LABELS.  Every
    row carrying one of them is removed; a label that no row carries raises
    KeyError. *)
Definition drop (df : DataFrame) (labels : list label) : result DataFrame :=
  if forallb (fun l => mem_label l (index df)) labels
  then Ok (mkDataFrame (columns df)
             (filter (fun r => negb (mem_label (fst r) labels)) (rows df)))
  else Raise (KeyError "not found in axis").

(** [df[mask]] with a boolean mask aligned with the rows. *)
Fixpoint select {A : Type} (l : list A) (mask : list bool) : list A :=
  match l, mask with
  | x :: l', b :: m' => if b then x :: select l' m' else select l' m'
  | _, _ => []
  end.

Definition bool_index (df : DataFrame) (mask : list bool) : DataFrame :=
  mkDataFrame (columns df) (select (rows df) mask).

(** [df.dropna(subset=[a, b])] *)
Definition dropna2 (df : DataFrame) (a b : string) : result DataFrame :=
  match col_pos a (columns df), col_pos b (columns df) with
  | Some i, Some j =>
      Ok (mkDataFrame (columns df)
            (filter (fun r => negb (is_nan (cell i r) || is_nan (cell j r)))
                    (rows df)))
  | None, _ => Raise (KeyError a)
  | _, None => Raise (KeyError b)
  end.

(** The default index of a frame of [n] rows: labels 0, 1, ..., n-1. *)
Fixpoint range_from (start : Z) (n : nat) : list Z :=
  match n with
  | O => []
  | S n' => start :: range_from (start + 1) n'
  end.

Definition default_index (df : DataFrame) : Prop :=
  index df = range_from 0 (List.length (rows df)).

(** ** numpy *)

(** [np.where(mask)[0]]: the POSITIONS at which the mask holds. *)
Fixpoint np_where_from (pos : Z) (mask : list bool) : list Z :=
  match mask with
  | [] => []
  | b :: m' =>
      if b then pos :: np_where_from (pos + 1) m'
      else np_where_from (pos + 1) m'
  end.

Definition np_where (mask : list bool) : list Z := np_where_from 0 mask.

Fixpoint insert_unique (x : Z) (l : list Z) : list Z :=
  match l with
  | [] => [x]
  | y :: l' =>
      if x <? y then x :: l
      else if x =? y then l
      else y :: insert_unique x l'
  end.

(** [np.unique]: the sorted distinct elements. *)
Definition np_unique (l : list Z) : list Z :=
  fold_right insert_unique [] l.

(** [a | b] on boolean arrays. *)
Fixpoint mask_or (a b : list bool) : list bool :=
  match a, b with
  | x :: a', y :: b' => (x || y) :: mask_or a' b'
  | _, _ => []
  end.

Fixpoint mask_and (a b : list bool) : list bool :=
  match a, b with
  | x :: a', y :: b' => (x && y) :: mask_and a' b'
  | _, _ => []
  end.

(** ** Arguments of the plotting functions *)

(** [screen_dimensions]: the tuple (height, width). *)
Definition screen : Type := (Q * Q)%type.

Definition screen_height (s : screen) : Q := fst s.
Definition screen_width (s : screen) : Q := snd s.

(** The [data] argument: any Python object, of interest only as a
    DataFrame or not. *)
Inductive pyobj : Type :=
| NotDataFrame
| Frame (df : DataFrame).

(** One AOI dictionary: its ['shape'] string and its ['coordinates']. *)
Record aoi : Type := mkAoi {
  shape : string;
  coordinates : list Q
}.

Inductive seqkind : Type := Tuple | PyList | NdArray.

#[local] Unset Elimination Schemes.
(** Values the [bins] argument can take. [PInt] stands for every instance
    of [numbers.Integral]; [PSeq] for a tuple, list or ndarray of at least
    one dimension, given by its items along the first axis; [PScalarArray]
    for an ndarray of no dimension, which holds one item and has no
    length. *)
Inductive pyval : Type :=
| PNone
| PInt (n : Z)
| PFloat (x : f64)
| PStr (s : string)
| PSeq (k : seqkind) (items : list pyval)
| PScalarArray (item : pyval).
#[local] Set Elimination Schemes.

(** ** utility.py *)

(** Modelled from the spec: [screen_dimensions_validation] of utility.py,
    which is not among the sources.  "Given screen dimensions, confirms a
    2-element positive-numeric tuple"; a failure is a ValidationError. *)
Definition screen_dimensions_validation (s : screen) : result unit :=
  if Qltb 0 (screen_height s) && Qltb 0 (screen_width s)
  then Ok tt
  else Raise (ValidationError "screen_dimensions").

(** Modelled from the spec: [dataframe_validation] of utility.py, which is
    not among the sources.  "Given a tabular dataset, confirms it contains
    the required coordinate columns (either a plain position pair or a
    duration-weighted position pair) and returns the extracted coordinate
    sequences"; a failure is a ValidationError. *)
Definition dataframe_validation (data : DataFrame)
  : result (list f64 * list f64) :=
  if has_col data "xpos" && has_col data "ypos" then
    let* x := getcol data "xpos" in
    let* y := getcol data "ypos" in
    Ok (x, y)
  else if has_col data "axp" && has_col data "ayp" then
    let* x := getcol data "axp" in
    let* y := getcol data "ayp" in
    Ok (x, y)
  else Raise (ValidationError "dataframe").

(** ** matplotlib *)

Inductive sizes : Type :=
| Scalar (s : Q)
| PerPoint (s : list f64).

(** [np.histogram2d]'s binning along one axis. *)
Inductive binning : Type :=
| Uniform (n : Z)
| Edges (e : list f64).

(** The histogram of a sample: its binning and the points counted.  The
    count matrix is a function of these four. *)
Record histogram : Type := mkHistogram {
  hist_bins_x : binning;
  hist_bins_y : binning;
  hist_x : list f64;
  hist_y : list f64
}.

(** The calls this module makes on an Axes (and its figure). *)
Inductive call : Type :=
| SetXlim (lo hi : Q)
| SetYlim (lo hi : Q)
| InvertYaxis
| TickTop
| Scatter (xs ys : list f64) (s : sizes)
| PlotPolyline (xs ys : list Z)
| PlotCircle (x_center y_center radius : Q) (points : nat)
| Imshow (h : histogram) (extent : Q * Q * Q * Q)
| Colorbar (lbl : string)
| SetXlabel (lbl : string)
| SetYlabel (lbl : string)
| Savefig (path : string)
| Stdout (msg : string).

Definition Axes : Type := list call.

(** [plt.subplots()]: a fresh figure with empty axes. *)
Definition subplots : Axes := [].

(** The attributes of an Axes this module names.  [overlay] is not an
    attribute of matplotlib's Axes. *)
Definition axes_attributes : list string :=
  [ "set_xlim"; "set_ylim"; "invert_yaxis"; "xaxis"; "scatter"; "plot";
    "imshow"; "set_xlabel"; "set_ylabel" ]%string.

(** [getattr(ax, name)] *)
Definition axes_getattr (name : string) : result unit :=
  if existsb (String.eqb name) axes_attributes then Ok tt
  else Raise (AttributeError
                (String.append "'Axes' object has no attribute '"
                               (String.append name "'"))).

Definition is_overlay (c : call) : bool :=
  match c with
  | PlotPolyline _ _ | PlotCircle _ _ _ _ => true
  | _ => false
  end.

(** ** numpy: histogram2d's argument check *)

Definition pyval_number (v : pyval) : option f64 :=
  match v with
  | PInt n => Some (Fin (inject_Z n))
  | PFloat x => Some x
  | _ => None
  end.

Fixpoint all_numbers (l : list pyval) : option (list f64) :=
  match l with
  | [] => Some []
  | v :: l' =>
      match pyval_number v, all_numbers l' with
      | Some x, Some xs => Some (x :: xs)
      | _, _ => None
      end
  end.

(** [np.any(edges[:-1] > edges[1:])] negated *)
Fixpoint monotonic (e : list f64) : bool :=
  match e with
  | a :: ((b :: _) as tl) => negb (f64_gt a b) && monotonic tl
  | _ => true
  end.

Definition bins_not_positive : exn :=
  ValueError "`bins` must be positive, when an integer".

(** What numpy raises when it is asked for an array beyond what the machine
    or its index type can hold. *)
Inductive resource_error : Type :=
| OutOfMemory
| OutOfRange
| Overflowing
| TooLarge.

Definition resource_exn (e : resource_error) : exn :=
  match e with
  | OutOfMemory => MemoryError "Unable to allocate array"
  | OutOfRange => IndexError "index out of bounds"
  | Overflowing => OverflowError "Python int too large to convert to C long"
  | TooLarge => ValueError "Maximum allowed size exceeded"
  end.

(** What the machine allows numpy: whether [np.linspace] can build the
    edges of [n] bins, and whether the count matrix of [nx] by [ny] cells
    can be built.  [None] is success. *)
Record numpy_limits : Type := mkLimits {
  linspace_limit : Z -> option resource_error;
  bincount_limit : Z -> Z -> option resource_error
}.

(** The item of an ndarray of no dimension, any other value itself. *)
Definition scalar_of (v : pyval) : pyval :=
  match v with
  | PScalarArray item => item
  | _ => v
  end.

(** One entry of [bins=[bins_x, bins_y]] against the sample of its axis,
    as [numpy.histogramdd] builds its edges.  A scalar count must be at
    least 1, needs a finite data range, must be an integer, and its edges
    are built by [np.linspace]; a one-dimensional sequence is a list of bin
    edges and must not decrease; anything else is rejected. *)
Definition np_bins (limits : numpy_limits) (v : pyval) (sample : list f64)
  : result binning :=
  match scalar_of v with
  | PInt n =>
      if n <? 1 then Raise bins_not_positive
      else if forallb is_finite sample then
        match linspace_limit limits n with
        | None => Ok (Uniform n)
        | Some e => Raise (resource_exn e)
        end
      else Raise (ValueError "autodetected range is not finite")
  | PFloat x =>
      if f64_lt x (Fin 1) then Raise bins_not_positive
      else if forallb is_finite sample
      then Raise (TypeError "`bins` must be an integer, when a scalar")
      else Raise (ValueError "autodetected range is not finite")
  | PNone | PStr _ | PScalarArray _ =>
      Raise (TypeError "'<' not supported")
  | PSeq _ items =>
      match all_numbers items with
      | Some e =>
          if monotonic e then Ok (Edges e)
          else Raise (ValueError "`bins` must be monotonically increasing")
      | None => Raise (ValueError "`bins` must be a scalar or 1d array")
      end
  end.

(** [nbin]: the bins of an axis and one outlier bin on each end. *)
Definition nbin (b : binning) : Z :=
  match b with
  | Uniform n => n + 2
  | Edges e => Z.of_nat (List.length e) + 1
  end.

(** [edges[i][-1]], read once the edges of every axis are built. *)
Definition last_edge (b : binning) : result unit :=
  match b with
  | Edges [] =>
      Raise (IndexError "index -1 is out of bounds for axis 0 with size 0")
  | _ => Ok tt
  end.

(** [np.histogram2d(x, y, bins=[bins_x, bins_y])[0]] *)
Definition np_histogram2d (limits : numpy_limits) (x y : list f64)
    (bins_x bins_y : pyval) : result histogram :=
  let* bx := np_bins limits bins_x x in
  let* by_ := np_bins limits bins_y y in
  let* _ := last_edge bx in
  let* _ := last_edge by_ in
  match bincount_limit limits (nbin bx) (nbin by_) with
  | None => Ok (mkHistogram bx by_ x y)
  | Some e => Raise (resource_exn e)
  end.

(** ** plotting.py *)

(** Lines 45-50 of [plot_as_scatter]: the positions of the samples outside
    the screen, from the coordinate sequences. *)
Definition out_of_bounds (x_coord y_coord : list f64) (screen_dimensions : screen)
  : list Z :=
  let out_of_bounds_x :=
    np_where (mask_or (map (fun x => f64_lt x (Fin 0)) x_coord)
                      (map (fun x => f64_ge x (Fin (snd screen_dimensions)))
                           x_coord)) in
  let out_of_bounds_y :=
    np_where (mask_or (map (fun y => f64_lt y (Fin 0)) y_coord)
                      (map (fun y => f64_ge y (Fin (fst screen_dimensions)))
                           y_coord)) in
  np_unique (out_of_bounds_x ++ out_of_bounds_y).

(** Lines 43-53 of [plot_as_scatter]: [clean_data], the frame with the
    out-of-bounds positions passed to [drop] as index labels. *)
Definition clean_data (data : DataFrame) (screen_dimensions : screen)
  : result DataFrame :=
  let* (x_coord, y_coord) := dataframe_validation data in
  drop data (out_of_bounds x_coord y_coord screen_dimensions).

(** Lines 56-66: the fresh axes with limits set, the y axis inverted and
    the x ticks on top. *)
Definition scatter_axes (screen_dimensions : screen) : Axes :=
  subplots ++ [SetXlim 0 (snd screen_dimensions - 1);
               SetYlim 0 (fst screen_dimensions - 1);
               InvertYaxis; TickTop].

(** Lines 74-76: the loop over [clean_data.iterrows()]. *)
Fixpoint fixation_duration (df : DataFrame) (rs : list (label * list f64))
  : result (list f64) :=
  match rs with
  | [] => Ok []
  | series :: rs' =>
      let* e := getcell df "etime" series in
      let* s := getcell df "stime" series in
      let single_duration := f64_sub e s in
      let* rest := fixation_duration df rs' in
      Ok (single_duration :: rest)
  end.

(** Lines 69-88: the scatter call on the cleaned frame. *)
Definition scatter_points (clean : DataFrame) (marker_size : Q) (ax : Axes)
  : result Axes :=
  if has_col clean "axp" && has_col clean "ayp" then
    let* durations := fixation_duration clean (rows clean) in
    let* longest := py_max durations in
    let max_duration := py_round2 longest in
    let mag_factor := map (fun duration => f64_div duration max_duration)
                          durations in
    let* xs := getcol clean "axp" in
    let* ys := getcol clean "ayp" in
    Ok (ax ++ [Scatter xs ys
                 (PerPoint (map (fun mag => f64_mul (Fin (3 * marker_size)) mag)
                                mag_factor))])
  else
    let* xs := getcol clean "xpos" in
    let* ys := getcol clean "ypos" in
    Ok (ax ++ [Scatter xs ys (Scalar marker_size)]).

Fixpoint ends_with_slash (s : string) : bool :=
  match s with
  | EmptyString => false
  | String c EmptyString => Ascii.eqb c "/"
  | String _ s' => ends_with_slash s'
  end.

(** [os.path.join(a, b)] for a relative [b]. *)
Definition path_join (a b : string) : string :=
  if ends_with_slash a then String.append a b
  else String.append a (String.append "/" b).

(** Lines 95-98: the file the figure is saved to. *)
Definition file_path (save_path : option string) : string :=
  match save_path with
  | None | Some EmptyString => "scatter_plot.png"%string
  | Some p => path_join p "scatter_plot.png"
  end.

Definition lower_ascii (c : ascii) : ascii :=
  let n := nat_of_ascii c in
  if (Nat.leb 65 n && Nat.leb n 90)%bool then ascii_of_nat (n + 32) else c.

(** [str.lower] on ASCII text. *)
Fixpoint lower (s : string) : string :=
  match s with
  | EmptyString => EmptyString
  | String c s' => String (lower_ascii c) (lower s')
  end.

(** Lines 135-154 of [overlay_aoi]: the body of the loop for one AOI. *)
Definition overlay_one (ax : Axes) (a : aoi) : result Axes :=
  let shape := lower (shape a) in
  let coordinates := coordinates a in
  if String.eqb shape "rectangle" then
    match map py_int coordinates with
    | [x1; x2; y1; y2] =>
        Ok (ax ++ [PlotPolyline [x1; x2; x2; x1; x1] [y1; y1; y2; y2; y1]])
    | _ => Raise (ValueError "values to unpack")
    end
  else if String.eqb shape "circle" then
    match coordinates with
    | [x_center; y_center; radius] =>
        Ok (ax ++ [PlotCircle x_center y_center radius 100])
    | _ => Raise (ValueError "values to unpack")
    end
  else Ok ax.

Fixpoint overlay_loop (ax : Axes) (aoi_definitions : list aoi) : result Axes :=
  match aoi_definitions with
  | [] => Ok ax
  | a :: rest =>
      let* ax' := overlay_one ax a in
      overlay_loop ax' rest
  end.

(** Lines 169-177 of [plot_heatmap]: the NaN filter and the screen filter. *)
Definition heatmap_filter (data : DataFrame) (screen_dimensions : screen)
  : result DataFrame :=
  let* data := dropna2 data "xpos" "ypos" in
  let '(screen_height, screen_width) := screen_dimensions in
  let* xpos := getcol data "xpos" in
  let* ypos := getcol data "ypos" in
  Ok (bool_index data
        (mask_and
           (mask_and
              (mask_and (map (fun x => f64_ge x (Fin 0)) xpos)
                        (map (fun x => f64_le x (Fin screen_width)) xpos))
              (map (fun y => f64_ge y (Fin 0)) ypos))
           (map (fun y => f64_le y (Fin screen_height)) ypos))).

Definition is_integral (v : pyval) : bool :=
  match v with PInt _ => true | _ => false end.

(** [isinstance(bins, (tuple, list, np.ndarray))] *)
Definition is_sequence (v : pyval) : bool :=
  match v with PSeq _ _ | PScalarArray _ => true | _ => false end.

(** [len(bins)]: an ndarray of no dimension has no length. *)
Definition py_len (v : pyval) : result nat :=
  match v with
  | PSeq _ items => Ok (List.length items)
  | PScalarArray _ => Raise (TypeError "len() of unsized object")
  | _ => Raise (TypeError "object has no len()")
  end.

Definition bins_error : exn :=
  ValueError "`bins` must be an integer or a tuple of two integers.".

(** Lines 179-188 of [plot_heatmap]: [bins_x] and [bins_y]. *)
Definition determine_bins (bins : pyval) (screen_dimensions : screen)
  : result (pyval * pyval) :=
  let '(screen_height, screen_width) := screen_dimensions in
  match bins with
  | PNone =>
      let* quotient_x := py_truediv screen_width 20 in
      let bins_x := py_int quotient_x in
      let* quotient_y := py_truediv screen_height 20 in
      let bins_y := py_int quotient_y in
      Ok (PInt bins_x, PInt bins_y)
  | _ =>
      if is_integral bins then Ok (bins, bins)
      else if is_sequence bins then
        let* n := py_len bins in
        if Nat.eqb n 2 then
          match bins with
          | PSeq _ [bins_x; bins_y] => Ok (bins_x, bins_y)
          | _ => Raise bins_error
          end
        else Raise bins_error
      else Raise bins_error
  end.

Section Plotting.

(** [aoi_definitions_validation] of utility.py is not among the sources:
    the functions below take it as given. *)
Variable aoi_definitions_validation : list aoi -> screen -> result unit.

(** Whether [fig.savefig] can write a file at a path. *)
Variable writable : string -> bool.

(** What the machine allows numpy. *)
Variable np_limits : numpy_limits.

Definition plot_as_scatter (data : pyobj) (screen_dimensions : screen)
    (aoi_definitions : option (list aoi)) (save_png : bool)
    (save_path : option string) (marker_size : Q) : result Axes :=
  match data with
  | NotDataFrame =>
      Raise (ValueError "Input data should be a pandas dataframe")
  | Frame data =>
      let* _ := screen_dimensions_validation screen_dimensions in
      let* clean := clean_data data screen_dimensions in
      let ax := scatter_axes screen_dimensions in
      let* ax := scatter_points clean marker_size ax in
      let* ax :=
        match aoi_definitions with
        | None => Ok ax
        | Some _ =>
            (* [ax.overlay] is looked up before anything is called *)
            let* _ := axes_getattr "overlay" in Ok ax
        end in
      if save_png then
        let file_path := file_path save_path in
        if writable file_path then
          Ok (ax ++ [Savefig file_path;
                     Stdout (String.append "Saved PNG file to " file_path)])
        else Raise (OSError file_path)
      else Ok ax
  end.

Definition overlay_aoi (aoi_definitions : list aoi)
    (screen_dimensions : screen) (ax : Axes) : result Axes :=
  let* _ := aoi_definitions_validation aoi_definitions screen_dimensions in
  let* _ := screen_dimensions_validation screen_dimensions in
  overlay_loop ax aoi_definitions.

Definition plot_heatmap (data : DataFrame) (screen_dimensions : screen)
    (aoi_definitions : option (list aoi)) (bins : pyval) : result Axes :=
  let* data := heatmap_filter data screen_dimensions in
  let '(screen_height, screen_width) := screen_dimensions in
  let* (bins_x, bins_y) := determine_bins bins screen_dimensions in
  let* xpos := getcol data "xpos" in
  let* ypos := getcol data "ypos" in
  let* heatmap := np_histogram2d np_limits xpos ypos bins_x bins_y in
  let ax := subplots in
  let ax := ax ++ [Imshow heatmap (0, screen_width, screen_height, 0)%Q;
                   Colorbar "Count"; TickTop] in
  let* ax :=
    match aoi_definitions with
    | None => Ok ax
    | Some aois => overlay_aoi aois screen_dimensions ax
    end in
  Ok (ax ++ [SetXlabel "X Position (pixels)";
             SetYlabel "Y Position (pixels)"]).

End Plotting.

(** ** processing.py: AOI definitions and membership *)

(** Modelled from the spec: the canonical AOIDefinition of processing.py,
    which is not among the sources.  "Rectangle: (x1, x2, y1, y2) with
    upper bound exclusive; circle: (center_x, center_y, radius)"; rectangle
    bounds are integers, circle centre and radius stay floats. *)
Inductive AOIDefinition : Type :=
| Rectangle (x1 x2 y1 y2 : Z)
| Circle (center_x center_y radius : Q).

(** Modelled from the spec: [define_aoi] of processing.py, which is not
    among the sources.  "Accepts shape + coordinates, normalizes coordinate
    types (casts to integer for rectangle bounds; leaves circle
    center/radius as floats), and returns a canonical AOIDefinition.
    Rejects unknown shapes." *)
Definition define_aoi (a : aoi) : result AOIDefinition :=
  if String.eqb (lower (shape a)) "rectangle" then
    match coordinates a with
    | [x1; x2; y1; y2] =>
        Ok (Rectangle (py_int x1) (py_int x2) (py_int y1) (py_int y2))
    | _ => Raise (ValueError "rectangle needs 4 coordinates")
    end
  else if String.eqb (lower (shape a)) "circle" then
    match coordinates a with
    | [cx; cy; r] => Ok (Circle cx cy r)
    | _ => Raise (ValueError "circle needs 3 coordinates")
    end
  else Raise (ValueError "unsupported shape").

(** The boundary a canonical AOI is drawn with. *)
Definition outline (a : AOIDefinition) : call :=
  match a with
  | Rectangle x1 x2 y1 y2 =>
      PlotPolyline [x1; x2; x2; x1; x1] [y1; y1; y2; y2; y1]
  | Circle cx cy r => PlotCircle cx cy r 100
  end.

Fixpoint define_all (l : list aoi) : result (list AOIDefinition) :=
  match l with
  | [] => Ok []
  | a :: l' =>
      let* d := define_aoi a in
      let* ds := define_all l' in
      Ok (d :: ds)
  end.

(** Modelled from the spec: the membership test of processing.py, which is
    not among the sources.  "For a rectangle AOI: point (x, y) is inside
    iff x1 <= x < x2 and y1 <= y < y2.  For a circle AOI: point (x, y) is
    inside iff (x - cx)^2 + (y - cy)^2 <= r^2." *)
Definition inside (a : AOIDefinition) (x y : Q) : bool :=
  match a with
  | Rectangle x1 x2 y1 y2 =>
      Qle_bool (inject_Z x1) x && Qltb x (inject_Z x2)
      && Qle_bool (inject_Z y1) y && Qltb y (inject_Z y2)
  | Circle cx cy r =>
      Qle_bool ((x - cx) * (x - cx) + (y - cy) * (y - cy)) (r * r)
  end.

(** The positions of the two coordinate columns [dataframe_validation]
    extracts. *)
Definition coordinate_columns (df : DataFrame) : option (nat * nat) :=
  match col_pos "xpos" (columns df), col_pos "ypos" (columns df) with
  | Some i, Some j => Some (i, j)
  | _, _ =>
      match col_pos "axp" (columns df), col_pos "ayp" (columns df) with
      | Some i, Some j => Some (i, j)
      | _, _ => None
      end
  end.

(** ** Row predicates of the two screen filters *)

(** A row is dropped by [plot_as_scatter]'s masks. *)
Definition scatter_drops (s : screen) (i j : nat) (r : label * list f64) : bool :=
  (f64_lt (cell i r) (Fin 0) || f64_ge (cell i r) (Fin (snd s)))
  || (f64_lt (cell j r) (Fin 0) || f64_ge (cell j r) (Fin (fst s))).

(** A row has a value in both gaze columns. *)
Definition not_na (i j : nat) (r : label * list f64) : bool :=
  negb (is_nan (cell i r) || is_nan (cell j r)).

(** A row passes [plot_heatmap]'s screen mask. *)
Definition heatmap_keeps (s : screen) (i j : nat) (r : label * list f64) : bool :=
  f64_ge (cell i r) (Fin 0) && f64_le (cell i r) (Fin (snd s))
  && f64_ge (cell j r) (Fin 0) && f64_le (cell j r) (Fin (fst s)).

(** Two floats compare equal. *)
Definition f64_eq (a b : f64) : bool := f64_le a b && f64_le b a.

(** A row with a value in both columns, neither on the right or bottom
    edge of the screen. *)
Definition off_edge (s : screen) (i j : nat) (r : label * list f64) : bool :=
  not_na i j r
  && negb (f64_eq (cell i r) (Fin (snd s)))
  && negb (f64_eq (cell j r) (Fin (fst s))).

(** ** Sample inputs *)

Definition gaze_columns : list string := ["xpos"; "ypos"]%string.

Definition fixation_columns : list string :=
  ["axp"; "ayp"; "stime"; "etime"]%string.

Definition screen_100 : screen := (100, 100)%Q.

Definition always_writable (_ : string) : bool := true.

Definition accept_aois (_ : list aoi) (_ : screen) : result unit := Ok tt.

(** A machine on which numpy can hold arrays of up to [cells] numbers. *)
Definition memory_of (cells : Z) : numpy_limits :=
  mkLimits (fun n => if cells <? n + 1 then Some OutOfMemory else None)
           (fun nx ny => if cells <? nx * ny then Some OutOfMemory else None).

Definition small_machine : numpy_limits := memory_of (2 ^ 27).

(** One sample on the right edge of the screen: x = width. *)
Definition edge_frame : DataFrame :=
  mkDataFrame gaze_columns [(0, [Fin 100; Fin 50])].

(** A sample without x coordinate, then a sample on the screen. *)
Definition nan_frame : DataFrame :=
  mkDataFrame gaze_columns [(0, [NaN; Fin 5]); (1, [Fin 10; Fin 10])].

(** [df.sort_values(...)] of a two-row frame: labels 1, 0.  The first row
    is off the screen, the second is on it. *)
Definition sorted_frame : DataFrame :=
  mkDataFrame gaze_columns
    [(1, [Fin (-5); Fin 10]); (0, [Fin 10; Fin 10])].

(** [df[df.trial == 2]]: a slice, which keeps the labels of its rows. *)
Definition sliced_frame : DataFrame :=
  mkDataFrame gaze_columns [(5, [Fin (-5); Fin 10])].

(** Labels 1, 0 again; here the second row is the one off the screen. *)
Definition swapped_frame : DataFrame :=
  mkDataFrame gaze_columns
    [(1, [Fin 10; Fin 10]); (0, [Fin (-5); Fin 10])].

Definition two_fixations : DataFrame :=
  mkDataFrame fixation_columns
    [(0, [Fin 10; Fin 5; Fin 0; Fin 250]);
     (1, [Fin 20; Fin 5; Fin 300; Fin 400])].

Definition far_fixation : DataFrame :=
  mkDataFrame fixation_columns [(0, [Fin 1000; Fin 5; Fin 0; Fin 250])].

Definition sample_aois : list aoi :=
  [mkAoi "Rectangle" [10 # 1; 41 # 2; 10 # 1; 20 # 1];
   mkAoi "circle" [101 # 2; 50 # 1; 10 # 1]].

(** ** Notions the further properties are stated with *)

(** [p] is the position of a row that [plot_as_scatter]'s masks flag. *)
Definition flagged_position (s : screen) (i j : nat)
    (rs : list (label * list f64)) (p : Z) : Prop :=
  exists k r, nth_error rs k = Some r
              /\ scatter_drops s i j r = true
              /\ p = Z.of_nat k.


(** The shape of an AOI is one [overlay_aoi] draws. *)
Definition recognized (a : aoi) : bool :=
  String.eqb (lower (shape a)) "rectangle"
  || String.eqb (lower (shape a)) "circle".

(** The AOI with its shape written in lower case. *)
Definition lower_shape (a : aoi) : aoi :=
  mkAoi (lower (shape a)) (coordinates a).

(** The three calls [plot_heatmap] makes before the AOIs are drawn, and the
    two it makes after. *)
Definition heatmap_image (h : histogram) (s : screen) : Axes :=
  [Imshow h (0, snd s, fst s, 0)%Q; Colorbar "Count"; TickTop].

Definition heatmap_labels : Axes :=
  [SetXlabel "X Position (pixels)"; SetYlabel "Y Position (pixels)"].


(** ** __init__.py *)

(** The names bound at the top level of plotting.py once it has run: the
    modules and names it imports and the three functions it defines. *)
Definition plotting_names : list string :=
  [ "pd"; "np"; "plt"; "os"; "dataframe_validation";
    "aoi_definitions_validation"; "screen_dimensions_validation"; "numbers";
    "plot_as_scatter"; "overlay_aoi"; "plot_heatmap" ]%string.

(** The outcome of [from module import n1, n2, ...]: the names bound, or an
    ImportError for the first name the module does not define. *)
Inductive imported : Type :=
| Bound (names : list string)
| ImportError (name : string).

Fixpoint from_import (module names : list string) : imported :=
  match names with
  | [] => Bound []
  | n :: rest =>
      if existsb (String.eqb n) module then
        match from_import module rest with
        | Bound l => Bound (n :: l)
        | ImportError e => ImportError e
        end
      else ImportError n
  end.

(** Line 3 of __init__.py. *)
Definition init_imports_plotting : imported :=
  from_import plotting_names
    ["plot_as_scatter"; "overylay_aoi"; "plot_heatmap"]%string.

(** * Lemmas *)

(** Case analysis on the calls a result in [H] is bound from. *)
Ltac bind_cases H :=
  repeat match type of H with
         | context [bind ?r _] =>
             let E := fresh "E" in
             destruct r eqn:E; simpl in H; try discriminate H
         end.

(** ** Lists and masks *)

Lemma select_map {A : Type} (f : A -> bool) (l : list A) :
  select l (map f l) = filter f l.
Proof.
  induction l as [|x l IH]; simpl; [reflexivity|].
  destruct (f x); rewrite IH; reflexivity.
Qed.

Lemma mask_or_map {A : Type} (f g : A -> bool) (l : list A) :
  mask_or (map f l) (map g l) = map (fun x => f x || g x) l.
Proof.
  induction l as [|x l IH]; simpl; [reflexivity|].
  now rewrite IH.
Qed.

Lemma mask_and_map {A : Type} (f g : A -> bool) (l : list A) :
  mask_and (map f l) (map g l) = map (fun x => f x && g x) l.
Proof.
  induction l as [|x l IH]; simpl; [reflexivity|].
  now rewrite IH.
Qed.

Lemma filter_all {A : Type} (f : A -> bool) (l : list A) :
  forallb f l = true -> filter f l = l.
Proof.
  induction l as [|x l IH]; simpl; [reflexivity|].
  intros H. apply andb_true_iff in H as [Hx Hl].
  rewrite Hx, IH by assumption. reflexivity.
Qed.

Lemma forallb_filter_same {A : Type} (f : A -> bool) (l : list A) :
  forallb f (filter f l) = true.
Proof.
  induction l as [|x l IH]; simpl; [reflexivity|].
  destruct (f x) eqn:E; simpl; [rewrite E|]; assumption.
Qed.

Lemma mem_label_In (p : label) (ls : list label) :
  mem_label p ls = true <-> In p ls.
Proof.
  unfold mem_label. rewrite existsb_exists. split.
  - intros [x [Hin Heq]]. apply Z.eqb_eq in Heq. now subst.
  - intros Hin. exists p. split; [assumption | apply Z.eqb_refl].
Qed.

(** ** numpy *)

Lemma np_where_from_ge (m : list bool) :
  forall s p, In p (np_where_from s m) -> s <= p.
Proof.
  induction m as [|b m IH]; simpl; intros s p H; [contradiction|].
  destruct b.
  - destruct H as [H|H]; [lia|]. apply IH in H. lia.
  - apply IH in H. lia.
Qed.

Lemma np_where_from_range (m : list bool) :
  forall s p, In p (np_where_from s m) -> In p (range_from s (List.length m)).
Proof.
  induction m as [|b m IH]; simpl; intros s p H; [contradiction|].
  destruct b.
  - destruct H as [H|H]; [now left | right; now apply IH].
  - right. now apply IH.
Qed.

Lemma np_where_from_none (m : list bool) :
  forallb negb m = true -> forall s, np_where_from s m = [].
Proof.
  induction m as [|b m IH]; simpl; intros H s; [reflexivity|].
  apply andb_true_iff in H as [Hb Hm]. destruct b; [discriminate|].
  now apply IH.
Qed.

Lemma In_insert_unique (x p : Z) (l : list Z) :
  In p (insert_unique x l) <-> p = x \/ In p l.
Proof.
  induction l as [|y l IH]; simpl.
  - intuition.
  - destruct (x <? y) eqn:Hlt; simpl.
    + intuition.
    + destruct (x =? y) eqn:Heq; simpl.
      * apply Z.eqb_eq in Heq. subst. intuition.
      * rewrite IH. intuition.
Qed.

Lemma In_np_unique (p : Z) (l : list Z) :
  In p (np_unique l) <-> In p l.
Proof.
  induction l as [|x l IH]; simpl; [reflexivity|].
  rewrite In_insert_unique, IH. intuition.
Qed.

(** The positions found in either mask are those of their disjunction. *)
Lemma np_where_from_mask_or (a : list bool) :
  forall b s p, List.length a = List.length b ->
    (In p (np_where_from s a) \/ In p (np_where_from s b)
     <-> In p (np_where_from s (mask_or a b))).
Proof.
  induction a as [|x a IH]; intros [|y b] s p Hlen; simpl in *;
    try discriminate; [intuition|].
  injection Hlen as Hlen. specialize (IH b (s + 1) p Hlen).
  destruct x, y; simpl; intuition.
Qed.

(** ** pandas *)

(** On a frame whose labels are consecutive from [s], dropping the
    positions of a mask (counted from [s]) removes the masked rows. *)
Lemma drop_positions_range (rs : list (label * list f64)) :
  forall s (m : list bool) (labels : list label),
    map fst rs = range_from s (List.length rs) ->
    List.length m = List.length rs ->
    (forall p, s <= p -> (In p labels <-> In p (np_where_from s m))) ->
    filter (fun r => negb (mem_label (fst r) labels)) rs
    = select rs (map negb m).
Proof.
  induction rs as [|r rs IH]; intros s m labels Hidx Hlen Hin.
  - reflexivity.
  - destruct m as [|b m]; [discriminate|].
    simpl in Hidx, Hlen. injection Hidx as Hr Hidx. injection Hlen as Hlen.
    assert (IH' := IH (s + 1) m labels Hidx Hlen).
    assert (Htail : forall p, s + 1 <= p ->
              (In p labels <-> In p (np_where_from (s + 1) m))).
    { intros p Hp. rewrite (Hin p) by lia. simpl.
      destruct b; simpl; [|reflexivity].
      split; [intros [H|H]; [lia | assumption] | now right]. }
    specialize (IH' Htail). simpl. rewrite IH'.
    assert (Hhead : mem_label (fst r) labels = b).
    { rewrite Hr. destruct b.
      - apply mem_label_In. apply Hin; [lia|]. simpl. now left.
      - destruct (mem_label s labels) eqn:E; [|reflexivity].
        apply mem_label_In in E. apply Hin in E; [|lia]. simpl in E.
        apply np_where_from_ge in E. lia. }
    rewrite Hhead. destruct b; reflexivity.
Qed.

Lemma dataframe_validation_columns (df : DataFrame) :
  dataframe_validation df =
  match coordinate_columns df with
  | Some (i, j) => Ok (map (cell i) (rows df), map (cell j) (rows df))
  | None => Raise (ValidationError "dataframe")
  end.
Proof.
  unfold dataframe_validation, coordinate_columns, has_col, getcol.
  destruct (col_pos "xpos" (columns df)), (col_pos "ypos" (columns df));
    simpl; try reflexivity;
    destruct (col_pos "axp" (columns df)), (col_pos "ayp" (columns df));
    reflexivity.
Qed.

Lemma out_of_bounds_In (s : screen) (i j : nat) (rs : list (label * list f64))
      (p : Z) :
  In p (out_of_bounds (map (cell i) rs) (map (cell j) rs) s)
  <-> In p (np_where_from 0 (map (scatter_drops s i j) rs)).
Proof.
  unfold out_of_bounds, np_where.
  rewrite In_np_unique, in_app_iff, !map_map, !mask_or_map.
  rewrite np_where_from_mask_or by (now rewrite !length_map).
  rewrite mask_or_map. reflexivity.
Qed.

(** On a frame with the default index, [clean_data] removes exactly the
    rows its masks flag. *)
Lemma clean_data_default_index (df : DataFrame) (s : screen) (i j : nat) :
  default_index df ->
  coordinate_columns df = Some (i, j) ->
  clean_data df s =
  Ok (mkDataFrame (columns df)
        (filter (fun r => negb (scatter_drops s i j r)) (rows df))).
Proof.
  intros Hidx Hcols. unfold clean_data.
  rewrite dataframe_validation_columns, Hcols. simpl. unfold drop.
  assert (Hall : forallb (fun l => mem_label l (index df))
                   (out_of_bounds (map (cell i) (rows df))
                                  (map (cell j) (rows df)) s) = true).
  { apply forallb_forall. intros p Hp. apply mem_label_In.
    apply out_of_bounds_In in Hp. apply np_where_from_range in Hp.
    rewrite length_map in Hp. now rewrite Hidx. }
  rewrite Hall. f_equal. f_equal.
  rewrite (drop_positions_range (rows df) 0 (map (scatter_drops s i j) (rows df))).
  - rewrite map_map. apply select_map.
  - exact Hidx.
  - apply length_map.
  - intros p _. apply out_of_bounds_In.
Qed.

(** Whatever the index, a frame without a flagged row is left as it is. *)
Lemma clean_data_nothing_flagged (df : DataFrame) (s : screen) (i j : nat) :
  coordinate_columns df = Some (i, j) ->
  forallb (fun r => negb (scatter_drops s i j r)) (rows df) = true ->
  clean_data df s = Ok df.
Proof.
  intros Hcols Hall. unfold clean_data.
  rewrite dataframe_validation_columns, Hcols. simpl.
  assert (Hnone : out_of_bounds (map (cell i) (rows df))
                                (map (cell j) (rows df)) s = []).
  { destruct (out_of_bounds _ _ s) as [|p l] eqn:E; [reflexivity|].
    assert (Hp : In p (out_of_bounds (map (cell i) (rows df))
                                     (map (cell j) (rows df)) s))
      by (rewrite E; now left).
    apply out_of_bounds_In in Hp.
    rewrite np_where_from_none in Hp; [contradiction|].
    rewrite forallb_forall in *. intros b Hb.
    apply in_map_iff in Hb as [r [Hr Hin]]. subst b. now apply Hall. }
  rewrite Hnone. unfold drop. simpl.
  rewrite filter_all by (apply forallb_forall; reflexivity).
  destruct df; reflexivity.
Qed.

(** [plot_heatmap]'s two filters, row by row; the index plays no part. *)
Lemma heatmap_filter_rows (df : DataFrame) (s : screen) (i j : nat) :
  col_pos "xpos" (columns df) = Some i ->
  col_pos "ypos" (columns df) = Some j ->
  heatmap_filter df s =
  Ok (mkDataFrame (columns df)
        (filter (heatmap_keeps s i j) (filter (not_na i j) (rows df)))).
Proof.
  intros Hx Hy. unfold heatmap_filter, dropna2. rewrite Hx, Hy. simpl.
  destruct s as [h w]. unfold getcol. simpl. rewrite Hx, Hy. simpl.
  unfold bool_index. simpl. f_equal. f_equal.
  rewrite !map_map, !mask_and_map. apply select_map.
Qed.

Lemma heatmap_filter_missing_column (df : DataFrame) (s : screen) :
  has_col df "xpos" && has_col df "ypos" = false ->
  exists name, heatmap_filter df s = Raise (KeyError name).
Proof.
  unfold has_col, heatmap_filter, dropna2.
  destruct (col_pos "xpos" (columns df)), (col_pos "ypos" (columns df));
    simpl; intros H; try discriminate; eauto.
Qed.

(** ** Comparisons *)

Lemma Qle_bool_total (p q : Q) : Qle_bool p q || Qle_bool q p = true.
Proof.
  destruct (Qle_bool p q) eqn:E; [reflexivity|]. simpl.
  apply Qle_bool_iff. apply Qlt_le_weak. apply Qnot_le_lt.
  intros H. apply Qle_bool_iff in H. congruence.
Qed.

(** Off the edges and away from NaN the two screen masks are the same. *)
Lemma off_edge_masks_agree (s : screen) (i j : nat) (r : label * list f64) :
  off_edge s i j r = true ->
  negb (scatter_drops s i j r) = (not_na i j r && heatmap_keeps s i j r).
Proof.
  unfold off_edge, scatter_drops, heatmap_keeps, not_na, f64_eq, f64_ge.
  destruct s as [h w]. simpl.
  destruct (cell i r) as [| |x|], (cell j r) as [| |y|]; simpl;
    try discriminate; try reflexivity; unfold Qltb;
    try (pose proof (Qle_bool_total x w));
    try (pose proof (Qle_bool_total y h));
    try (pose proof (Qle_bool_total x 0));
    try (pose proof (Qle_bool_total y 0));
    repeat match goal with
           | |- context [Qle_bool ?a ?b] => destruct (Qle_bool a b)
           | H : context [Qle_bool ?a ?b] |- _ => destruct (Qle_bool a b)
           end; simpl in *; try discriminate; try reflexivity; intuition.
Qed.

Lemma filter_filter {A : Type} (f g : A -> bool) (l : list A) :
  filter g (filter f l) = filter (fun x => f x && g x) l.
Proof.
  induction l as [|x l IH]; simpl; [reflexivity|].
  destruct (f x); simpl; [destruct (g x)|]; now rewrite IH.
Qed.

(** On a gaze frame with the default index whose samples all have both
    coordinates and lie off the right and bottom edges, the two plotting
    functions keep the same rows. *)
Lemma screen_filters_agree (df : DataFrame) (s : screen) (i j : nat) :
  default_index df ->
  col_pos "xpos" (columns df) = Some i ->
  col_pos "ypos" (columns df) = Some j ->
  forallb (off_edge s i j) (rows df) = true ->
  clean_data df s = heatmap_filter df s.
Proof.
  intros Hidx Hx Hy Hall.
  rewrite (heatmap_filter_rows df s i j Hx Hy).
  rewrite (clean_data_default_index df s i j Hidx)
    by (unfold coordinate_columns; now rewrite Hx, Hy).
  f_equal. f_equal. rewrite filter_filter. apply filter_ext_in.
  intros r Hr. apply off_edge_masks_agree.
  rewrite forallb_forall in Hall. now apply Hall.
Qed.

(** * The claims *)

(** C1: the claim is that [plot_as_scatter] and [plot_heatmap] keep the
    same samples for every dataset and screen.  They do not: a sample with
    x equal to the screen width is dropped by the scatter plot's mask
    ([x >= width]) and kept by the heat map's ([x <= width]). *)
Theorem screen_filters_differ_on_edge :
  clean_data edge_frame screen_100 = Ok (mkDataFrame gaze_columns [])
  /\ heatmap_filter edge_frame screen_100 = Ok edge_frame.
Proof. split; reflexivity. Qed.

(** What [plot_heatmap] keeps has both coordinates, and they are finite. *)
Lemma heatmap_keeps_finite (s : screen) (i j : nat) (r : label * list f64) :
  heatmap_keeps s i j r = true ->
  is_finite (cell i r) = true /\ is_finite (cell j r) = true.
Proof.
  unfold heatmap_keeps, f64_ge. destruct s as [h w]. simpl.
  destruct (cell i r), (cell j r); simpl; intros H;
    try discriminate; try (split; reflexivity);
    rewrite ?andb_false_r in H; discriminate.
Qed.

Lemma heatmap_filter_excludes_nan (df d : DataFrame) (s : screen) (i j : nat) :
  col_pos "xpos" (columns df) = Some i ->
  col_pos "ypos" (columns df) = Some j ->
  heatmap_filter df s = Ok d ->
  forall r, In r (rows d) ->
    In r (rows df) /\ is_nan (cell i r) = false /\ is_nan (cell j r) = false.
Proof.
  intros Hx Hy Hd r Hr.
  rewrite (heatmap_filter_rows df s i j Hx Hy) in Hd.
  injection Hd as Hd. subst d. simpl in Hr.
  apply filter_In in Hr as [Hr _]. apply filter_In in Hr as [Hin Hna].
  unfold not_na in Hna. apply negb_true_iff, orb_false_iff in Hna.
  tauto.
Qed.

(** A missing x coordinate flags nothing: the row is dropped by the scatter
    plot only if its y coordinate is off the screen. *)
Lemma scatter_drops_nan_x (s : screen) (i j : nat) (r : label * list f64) :
  cell i r = NaN ->
  scatter_drops s i j r
  = (f64_lt (cell j r) (Fin 0) || f64_ge (cell j r) (Fin (fst s))).
Proof. unfold scatter_drops. now intros ->. Qed.

(** C2: the claim is that both plotting functions exclude rows with a NaN
    coordinate before any processing.  [plot_heatmap] does ([dropna]);
    [plot_as_scatter] does not: NaN compares false against both bounds, so
    the row is never flagged, stays in [clean_data] and is handed to
    [ax.scatter]. *)
Theorem plot_as_scatter_keeps_nan_rows :
  clean_data nan_frame screen_100 = Ok nan_frame
  /\ plot_as_scatter always_writable (Frame nan_frame) screen_100
       None false None 60
     = Ok (scatter_axes screen_100
           ++ [Scatter [NaN; Fin 10] [Fin 5; Fin 10] (Scalar 60)])
  /\ heatmap_filter nan_frame screen_100
     = Ok (mkDataFrame gaze_columns [(1, [Fin 10; Fin 10])]).
Proof. repeat split; reflexivity. Qed.


(** On a frame with the default index [clean_data] keeps a row exactly
    when its masks do not flag it. *)
Lemma clean_data_default_index_exact (df clean : DataFrame) (s : screen)
      (i j : nat) :
  default_index df ->
  coordinate_columns df = Some (i, j) ->
  clean_data df s = Ok clean ->
  forall r, In r (rows clean)
            <-> In r (rows df) /\ scatter_drops s i j r = false.
Proof.
  intros Hidx Hcols Hclean r.
  rewrite (clean_data_default_index df s i j Hidx Hcols) in Hclean.
  injection Hclean as Hclean. subst clean. simpl.
  rewrite filter_In, negb_true_iff. reflexivity.
Qed.

(** C3: the claim is that [plot_as_scatter] drops exactly the out-of-bounds
    samples of every dataset, without raising.  The positions found by
    [np.where] are passed to [drop] as index labels, so it holds on the
    default index only.  On [sorted_frame] the out-of-bounds sample (label
    1, position 0) is kept and the in-bounds one (label 0) is dropped; on
    [sliced_frame] no row is labelled 0 and the call raises KeyError. *)
Theorem clean_data_drops_by_label :
  clean_data sorted_frame screen_100
  = Ok (mkDataFrame gaze_columns [(1, [Fin (-5); Fin 10])])
  /\ clean_data sliced_frame screen_100
     = Raise (KeyError "not found in axis")
  /\ plot_as_scatter always_writable (Frame sliced_frame) screen_100
       None false None 60
     = Raise (KeyError "not found in axis").
Proof. repeat split; reflexivity. Qed.

Lemma coordinate_columns_same (df d : DataFrame) :
  columns d = columns df -> coordinate_columns d = coordinate_columns df.
Proof. unfold coordinate_columns. now intros ->. Qed.

(** On a frame with the default index, cleaning the cleaned frame changes
    nothing. *)
Lemma clean_data_twice_default_index (df clean : DataFrame) (s : screen) :
  default_index df ->
  clean_data df s = Ok clean ->
  clean_data clean s = Ok clean.
Proof.
  intros Hidx Hclean.
  destruct (coordinate_columns df) as [[i j]|] eqn:Hcols.
  - rewrite (clean_data_default_index df s i j Hidx Hcols) in Hclean.
    injection Hclean as Hclean. subst clean.
    apply (clean_data_nothing_flagged _ s i j).
    + rewrite <- Hcols. now apply coordinate_columns_same.
    + simpl. apply forallb_filter_same.
  - unfold clean_data in Hclean.
    rewrite dataframe_validation_columns, Hcols in Hclean. discriminate.
Qed.

(** C6: the claim is that cleaning an already cleaned dataset removes
    nothing, for every dataset.  With positions used as labels it holds on
    the default index only.  The first cleaning of [swapped_frame] drops
    the in-bounds row and keeps the out-of-bounds one, which the second
    cleaning then drops; on [sorted_frame] the second cleaning raises
    KeyError. *)
Theorem clean_data_twice_differs :
  clean_data swapped_frame screen_100
  = Ok (mkDataFrame gaze_columns [(0, [Fin (-5); Fin 10])])
  /\ clean_data (mkDataFrame gaze_columns [(0, [Fin (-5); Fin 10])]) screen_100
     = Ok (mkDataFrame gaze_columns [])
  /\ (let* once := clean_data sorted_frame screen_100 in
      clean_data once screen_100)
     = Raise (KeyError "not found in axis").
Proof. repeat split; reflexivity. Qed.

(** ** The scatter plot *)

Lemma axes_getattr_overlay :
  axes_getattr "overlay"
  = Raise (AttributeError "'Axes' object has no attribute 'overlay'").
Proof. reflexivity. Qed.

Lemma scatter_points_appends (clean : DataFrame) (ms : Q) (ax ax' : Axes) :
  scatter_points clean ms ax = Ok ax' ->
  exists xs ys sz, ax' = ax ++ [Scatter xs ys sz].
Proof.
  unfold scatter_points. intros H.
  destruct (has_col clean "axp" && has_col clean "ayp");
    bind_cases H; injection H as <-; eauto.
Qed.

Lemma no_overlay_app (a b : Axes) :
  forallb (fun c => negb (is_overlay c)) (a ++ b)
  = forallb (fun c => negb (is_overlay c)) a
    && forallb (fun c => negb (is_overlay c)) b.
Proof. apply forallb_app. Qed.

Lemma clean_data_columns (df clean : DataFrame) (s : screen) :
  clean_data df s = Ok clean -> columns clean = columns df.
Proof.
  unfold clean_data. intros H. bind_cases H.
  destruct a as [x y]. unfold drop in H.
  destruct (forallb _ _); [|discriminate]. now injection H as <-.
Qed.

Lemma fixation_duration_total (df : DataFrame) (rs : list (label * list f64)) :
  has_col df "stime" = true -> has_col df "etime" = true ->
  exists ds, fixation_duration df rs = Ok ds
             /\ List.length ds = List.length rs.
Proof.
  unfold has_col. intros Hs He.
  destruct (col_pos "stime" (columns df)) as [si|] eqn:Es; [|discriminate].
  destruct (col_pos "etime" (columns df)) as [ei|] eqn:Ee; [|discriminate].
  induction rs as [|r rs [ds [IH Hlen]]]; simpl.
  - now exists [].
  - unfold getcell. rewrite Es, Ee. simpl. rewrite IH. simpl.
    eexists. split; [reflexivity|]. simpl. now rewrite Hlen.
Qed.

(** C4: a call of [plot_as_scatter] with AOI definitions never returns; once
    the points are plotted it raises AttributeError, because [overlay] is
    looked up on the Axes; and no call of [plot_as_scatter], with or
    without AOI definitions, returns axes with an AOI outline on them. *)
Theorem plot_as_scatter_never_overlays
    (writable : string -> bool) (data : pyobj) (s : screen)
    (aois : list aoi) (save_png : bool) (save_path : option string)
    (marker_size : Q) :
  is_ok (plot_as_scatter writable data s (Some aois) save_png save_path
           marker_size) = false
  /\ (forall df clean ax,
        data = Frame df ->
        screen_dimensions_validation s = Ok tt ->
        clean_data df s = Ok clean ->
        scatter_points clean marker_size (scatter_axes s) = Ok ax ->
        plot_as_scatter writable data s (Some aois) save_png save_path
          marker_size
        = Raise (AttributeError "'Axes' object has no attribute 'overlay'"))
  /\ (forall aoi_definitions ax,
        plot_as_scatter writable data s aoi_definitions save_png save_path
          marker_size = Ok ax ->
        forallb (fun c => negb (is_overlay c)) ax = true).
Proof.
  split; [|split].
  - unfold plot_as_scatter. destruct data as [|df]; [reflexivity|].
    destruct (screen_dimensions_validation s); [|reflexivity]. simpl.
    destruct (clean_data df s); [|reflexivity]. simpl.
    destruct (scatter_points _ _ _); reflexivity.
  - intros df clean ax -> Hs Hc Hp. unfold plot_as_scatter.
    rewrite Hs. simpl. rewrite Hc. simpl. rewrite Hp. reflexivity.
  - intros aoi_definitions ax H. unfold plot_as_scatter in H.
    destruct data as [|df]; [discriminate|].
    destruct (screen_dimensions_validation s); [|discriminate]. simpl in H.
    destruct (clean_data df s) as [clean|]; [|discriminate]. simpl in H.
    destruct (scatter_points _ _ _) as [ax0|] eqn:Hp; [|discriminate].
    simpl in H. apply scatter_points_appends in Hp as [xs [ys [sz ->]]].
    destruct aoi_definitions as [l|].
    + discriminate H.
    + simpl in H. destruct save_png.
      * destruct (writable _); [|discriminate]. injection H as <-.
        rewrite ?no_overlay_app. reflexivity.
      * injection H as <-. rewrite ?no_overlay_app. reflexivity.
Qed.

Lemma plot_as_scatter_never_overlays_witness :
  scatter_points two_fixations 60 (scatter_axes screen_100)
  = Ok (scatter_axes screen_100
        ++ [Scatter [Fin 10; Fin 20] [Fin 5; Fin 5]
              (PerPoint [Fin (4500000 # 25000); Fin (1800000 # 25000)])])
  /\ plot_as_scatter always_writable (Frame two_fixations) screen_100
       (Some sample_aois) false None 60
     = Raise (AttributeError "'Axes' object has no attribute 'overlay'").
Proof.
  split; [reflexivity|].
  destruct (plot_as_scatter_never_overlays always_writable
              (Frame two_fixations) screen_100 sample_aois false None 60)
    as [_ [H _]].
  apply (H two_fixations two_fixations
           (scatter_axes screen_100
            ++ [Scatter [Fin 10; Fin 20] [Fin 5; Fin 5]
                  (PerPoint [Fin (4500000 # 25000);
                             Fin (1800000 # 25000)])]));
    reflexivity.
Defined.

(** C9: on a frame with columns [axp] and [ayp], when no row is left after
    the cleaning the call raises ([max] of an empty list) instead of
    returning empty axes; so a call that returns had at least one row left.
    With the time columns present, at least one row left, no AOI
    definitions and nothing to save, the call does return. *)
Theorem fixation_scatter_needs_a_sample
    (writable : string -> bool) (df clean : DataFrame) (s : screen)
    (aoi_definitions : option (list aoi)) (save_png : bool)
    (save_path : option string) (marker_size : Q) :
  has_col df "axp" = true ->
  has_col df "ayp" = true ->
  screen_dimensions_validation s = Ok tt ->
  clean_data df s = Ok clean ->
  (rows clean = [] ->
   plot_as_scatter writable (Frame df) s aoi_definitions save_png save_path
     marker_size
   = Raise (ValueError "max() arg is an empty sequence"))
  /\ (succeeds (plot_as_scatter writable (Frame df) s aoi_definitions
                  save_png save_path marker_size) ->
      rows clean <> [])
  /\ (rows clean <> [] ->
      has_col df "stime" = true -> has_col df "etime" = true ->
      succeeds (plot_as_scatter writable (Frame df) s None false save_path
                  marker_size)).
Proof.
  intros Hx Hy Hs Hc.
  assert (Hcols := clean_data_columns df clean s Hc).
  assert (Hempty : rows clean = [] ->
            plot_as_scatter writable (Frame df) s aoi_definitions save_png
              save_path marker_size
            = Raise (ValueError "max() arg is an empty sequence")).
  { intros Hr. unfold plot_as_scatter. rewrite Hs. simpl. rewrite Hc. simpl.
    unfold scatter_points, has_col. rewrite Hcols.
    unfold has_col in Hx, Hy.
    destruct (col_pos "axp" (columns df)); [|discriminate].
    destruct (col_pos "ayp" (columns df)); [|discriminate].
    simpl. rewrite Hr. reflexivity. }
  split; [exact Hempty|split].
  - intros [ax Hax] Hr. rewrite (Hempty Hr) in Hax. discriminate.
  - intros Hr Hst Het. unfold plot_as_scatter.
    rewrite Hs. simpl. rewrite Hc. simpl.
    unfold scatter_points, has_col, getcol. rewrite Hcols.
    unfold has_col in Hx, Hy.
    destruct (col_pos "axp" (columns df)); [|discriminate].
    destruct (col_pos "ayp" (columns df)); [|discriminate].
    simpl.
    destruct (fixation_duration_total clean (rows clean)) as [ds [Hds Hlen]].
    { unfold has_col. now rewrite Hcols. }
    { unfold has_col. now rewrite Hcols. }
    rewrite Hds. simpl.
    destruct ds as [|d ds].
    + destruct (rows clean); [contradiction | discriminate].
    + simpl. eexists. reflexivity.
Qed.

Lemma fixation_scatter_needs_a_sample_witness :
  plot_as_scatter always_writable (Frame far_fixation) screen_100 None false
    None 60
  = Raise (ValueError "max() arg is an empty sequence").
Proof.
  apply (fixation_scatter_needs_a_sample always_writable far_fixation
           (mkDataFrame fixation_columns []) screen_100 None false None 60);
    reflexivity.
Defined.

(** ** The heat map *)

Lemma py_int_nonneg (q : Q) : (0 <= q)%Q -> py_int q = Qfloor q.
Proof.
  destruct q as [n d]. unfold Qle, py_int, Qfloor. simpl. intros H.
  apply Z.quot_div_nonneg; lia.
Qed.

Lemma py_int_nonpos (q : Q) : (q < 0)%Q -> py_int q <= 0.
Proof.
  destruct q as [n d]. unfold Qlt, py_int. simpl. intros H.
  assert (Hn : n < 0) by lia.
  replace n with (- (- n)) by lia. rewrite Z.quot_opp_l by lia.
  assert (0 <= Z.quot (- n) (Z.pos d)) by (apply Z.quot_pos; lia). lia.
Qed.

Lemma Qfloor_ge_1 (q : Q) : 1 <= Qfloor q <-> (1 <= q)%Q.
Proof.
  split; intros H.
  - apply Qle_trans with (inject_Z (Qfloor q)); [|apply Qfloor_le].
    change (inject_Z 1 <= inject_Z (Qfloor q))%Q.
    rewrite <- Zle_Qle. exact H.
  - apply Qfloor_resp_le in H. exact H.
Qed.

Lemma py_int_ge_1 (q : Q) : 1 <= py_int q <-> (1 <= q)%Q.
Proof.
  destruct (Qlt_le_dec q 0) as [Hneg|Hpos].
  - split; intros H.
    + apply py_int_nonpos in Hneg. lia.
    + exfalso. apply (Qlt_not_le _ _ Hneg).
      apply Qle_trans with 1%Q; [discriminate | exact H].
  - rewrite py_int_nonneg by assumption. apply Qfloor_ge_1.
Qed.

Lemma one_le_twentieth (w : Q) : (1 <= w / 20 <-> 20 <= w)%Q.
Proof.
  split; intros H.
  - apply (Qmult_le_r _ _ (/ 20)); [reflexivity|].
    setoid_replace (20 * / 20)%Q with 1%Q by reflexivity. exact H.
  - apply (Qmult_le_r _ _ (/ 20)) in H; [|reflexivity].
    setoid_replace (20 * / 20)%Q with 1%Q in H by reflexivity. exact H.
Qed.

Lemma Qfloor_twentieth_zero (w : Q) :
  (0 < w)%Q -> (w < 20)%Q -> Qfloor (w / 20) = 0.
Proof.
  intros Hpos Hlt.
  assert (H0 : 0 <= Qfloor (w / 20)).
  { rewrite <- (Qfloor_Z 0). apply Qfloor_resp_le.
    apply Qle_shift_div_l; [reflexivity|].
    setoid_replace (0 * 20)%Q with 0%Q by reflexivity.
    now apply Qlt_le_weak. }
  assert (H1 : ~ 1 <= Qfloor (w / 20)).
  { rewrite Qfloor_ge_1, one_le_twentieth. now apply Qlt_not_le. }
  lia.
Qed.

(** [plot_heatmap] without AOI definitions on a frame with gaze columns,
    when both bin entries are integers. *)
(** ** Rounding to binary64 *)

Lemma pow2_pos (e : Z) : (0 < pow2 e)%Q.
Proof. apply Qpower_0_lt. reflexivity. Qed.

Lemma pow2_plus (a b : Z) : (pow2 (a + b) == pow2 a * pow2 b)%Q.
Proof. apply Qpower_plus. discriminate. Qed.

Lemma pow2_Z (a : Z) : 0 <= a -> (inject_Z (2 ^ a) == pow2 a)%Q.
Proof. intros H. unfold pow2. now rewrite Zpower_Qpower. Qed.

Lemma pow2_lt_inv (a b : Z) : (pow2 a < pow2 b)%Q -> a < b.
Proof. intros H. apply (Qpower_lt_compat_l_inv 2); [exact H | reflexivity]. Qed.

Lemma pow2_le (a b : Z) : a <= b -> (pow2 a <= pow2 b)%Q.
Proof. intros H. apply Qpower_le_compat_l; [exact H | discriminate]. Qed.

Lemma ilog2_spec (q : Q) :
  (0 < q)%Q -> (pow2 (ilog2 q) <= q /\ q < pow2 (ilog2 q + 1))%Q.
Proof.
  intros Hq. destruct q as [n d]. unfold ilog2.
  change (Qnum (n # d)) with n. change (Qden (n # d)) with d.
  assert (Hn : 0 < n) by (unfold Qlt in Hq; simpl in Hq; lia).
  destruct (Z.log2_spec n Hn) as [Ha1 Ha2].
  destruct (Z.log2_spec (Z.pos d) (Pos2Z.is_pos d)) as [Hb1 Hb2].
  pose proof (Z.log2_nonneg n) as Ha0.
  pose proof (Z.log2_nonneg (Z.pos d)) as Hb0.
  set (a := Z.log2 n) in *. set (b := Z.log2 (Z.pos d)) in *.
  assert (Hqd : (n # d == inject_Z n / inject_Z (Z.pos d))%Q)
    by apply Qmake_Qdiv.
  assert (Hdpos : (0 < inject_Z (Z.pos d))%Q) by reflexivity.
  assert (HA1 : (pow2 a <= inject_Z n)%Q)
    by (rewrite <- pow2_Z by lia; now rewrite <- Zle_Qle).
  assert (HA2 : (inject_Z n < pow2 (a + 1))%Q)
    by (rewrite <- pow2_Z by lia; now rewrite <- Zlt_Qlt).
  assert (HB1 : (pow2 b <= inject_Z (Z.pos d))%Q)
    by (rewrite <- pow2_Z by lia; now rewrite <- Zle_Qle).
  assert (HB2 : (inject_Z (Z.pos d) < pow2 (b + 1))%Q)
    by (rewrite <- pow2_Z by lia; now rewrite <- Zlt_Qlt).
  assert (Hmul : (inject_Z n == (n # d) * inject_Z (Z.pos d))%Q).
  { rewrite Hqd. field. intros H. rewrite H in Hdpos. discriminate. }
  pose proof (pow2_pos a) as Pa. pose proof (pow2_pos b) as Pb.
  pose proof (pow2_pos (a - b)) as Pg.
  assert (Hg : (pow2 a == pow2 (a - b) * pow2 b)%Q)
    by (rewrite <- pow2_plus; now replace (a - b + b) with a by lia).
  assert (Ha' : (pow2 (a + 1) == 2 * pow2 a)%Q)
    by (rewrite pow2_plus; unfold pow2 at 2; simpl; ring).
  assert (Hb' : (pow2 (b + 1) == 2 * pow2 b)%Q)
    by (rewrite pow2_plus; unfold pow2 at 2; simpl; ring).
  destruct (Qle_bool (pow2 (a - b)) (n # d)) eqn:E.
  - apply Qle_bool_iff in E. split; [exact E|].
    assert (Hg1 : (pow2 (a - b + 1) == 2 * pow2 (a - b))%Q)
      by (rewrite pow2_plus; unfold pow2 at 2; simpl; ring).
    rewrite Hg1. set (q := n # d) in *. nra.
  - assert (E' : (n # d < pow2 (a - b))%Q).
    { apply Qnot_le_lt. intros H. apply Qle_bool_iff in H. congruence. }
    replace (a - b - 1 + 1) with (a - b) by lia. split; [|exact E'].
    assert (Hg1 : (pow2 (a - b) == 2 * pow2 (a - b - 1))%Q).
    { replace (a - b) with ((a - b - 1) + 1) at 1 by lia.
      rewrite pow2_plus. unfold pow2 at 2. simpl. ring. }
    pose proof (pow2_pos (a - b - 1)) as Pg1.
    set (q := n # d) in *. nra.
Qed.

Lemma round_half_even_error (s : Q) :
  (s - (1 # 2) <= inject_Z (round_half_even s)
   /\ inject_Z (round_half_even s) <= s + (1 # 2))%Q.
Proof.
  unfold round_half_even.
  pose proof (Qfloor_le s) as Hlo. pose proof (Qlt_floor s) as Hhi.
  rewrite inject_Z_plus in Hhi. change (inject_Z 1) with 1%Q in Hhi.
  set (f := Qfloor s) in *.
  unfold Qltb.
  destruct (Qle_bool (1 # 2) (s - inject_Z f)) eqn:E1; simpl.
  - apply Qle_bool_iff in E1.
    destruct (Qle_bool (s - inject_Z f) (1 # 2)) eqn:E2; simpl.
    + apply Qle_bool_iff in E2.
      destruct (Z.even f); rewrite ?inject_Z_plus;
        change (inject_Z 1) with 1%Q; split; lra.
    + rewrite inject_Z_plus. change (inject_Z 1) with 1%Q. split; lra.
  - assert (E1' : (s - inject_Z f < 1 # 2)%Q).
    { apply Qnot_le_lt. intros H. apply Qle_bool_iff in H. congruence. }
    split; lra.
Qed.

Lemma round_half_even_Z (s : Q) (z : Z) :
  (s == inject_Z z)%Q -> round_half_even s = z.
Proof.
  intros H. unfold round_half_even.
  assert (Hf : Qfloor s = z) by (rewrite H; apply Qfloor_Z).
  rewrite Hf. unfold Qltb.
  assert (E : Qle_bool (1 # 2) (s - inject_Z z) = false).
  { apply not_true_iff_false. intros E. apply Qle_bool_iff in E. lra. }
  now rewrite E.
Qed.

Lemma Qfloor_unique (r : Q) (k : Z) :
  (inject_Z k <= r)%Q -> (r < inject_Z (k + 1))%Q -> Qfloor r = k.
Proof.
  intros Hlo Hhi.
  pose proof (Qfloor_le r) as H1. pose proof (Qlt_floor r) as H2.
  assert (Qfloor r < k + 1).
  { rewrite Zlt_Qlt. eapply Qle_lt_trans; eassumption. }
  assert (k < Qfloor r + 1).
  { rewrite Zlt_Qlt. eapply Qle_lt_trans; eassumption. }
  lia.
Qed.

(** In the normal range the rounded value is within half a unit in the last
    place. *)
Lemma round_binary64_pos_near (q : Q) :
  (0 < q)%Q -> -1022 <= ilog2 q -> ilog2 q < 1023 ->
  exists r,
    round_binary64_pos q = Some r
    /\ r = (inject_Z (round_half_even (q / pow2 (ilog2 q - 52)))
            * pow2 (ilog2 q - 52))%Q
    /\ (q - pow2 (ilog2 q - 53) <= r /\ r <= q + pow2 (ilog2 q - 53))%Q.
Proof.
  intros Hq Hlo Hhi. unfold round_binary64_pos, ulp_exponent.
  rewrite Z.max_l by lia.
  destruct (ilog2_spec q Hq) as [H1 H2].
  set (l := ilog2 q) in *. set (e := l - 52).
  pose proof (pow2_pos e) as Pe.
  pose proof (round_half_even_error (q / pow2 e)) as [Ha Hb].
  set (m := inject_Z (round_half_even (q / pow2 e))) in *.
  assert (Hs : (q / pow2 e * pow2 e == q)%Q) by (field; lra).
  assert (Hhalf : (pow2 e == 2 * pow2 (l - 53))%Q).
  { unfold e. replace (l - 52) with ((l - 53) + 1) by lia.
    rewrite pow2_plus. unfold pow2 at 2. simpl. ring. }
  pose proof (pow2_pos (l - 53)) as Ph.
  assert (Hr : (q - pow2 (l - 53) <= m * pow2 e
                /\ m * pow2 e <= q + pow2 (l - 53))%Q).
  { set (s := (q / pow2 e)%Q) in *. nra. }
  assert (Hl : (pow2 l == pow2 52 * pow2 e)%Q).
  { unfold e. rewrite <- pow2_plus. now replace (52 + (l - 52)) with l by lia. }
  assert (Htop : (pow2 (l + 1) <= pow2 1023)%Q) by (apply pow2_le; lia).
  assert (H1024 : (pow2 1024 == 2 * pow2 1023)%Q).
  { replace 1024 with (1023 + 1) by lia.
    rewrite pow2_plus. unfold pow2 at 2. simpl. ring. }
  assert (H52 : (pow2 52 == 4503599627370496)%Q) by reflexivity.
  assert (Hover : Qle_bool (pow2 1024) (m * pow2 e) = false).
  { apply not_true_iff_false. intros E. apply Qle_bool_iff in E.
    pose proof (pow2_pos 1023). nra. }
  rewrite Hover. eexists. split; [reflexivity | split; [reflexivity|exact Hr]].
Qed.

Lemma round_binary64_positive (q : Q) :
  (0 < q)%Q -> round_binary64 q = round_binary64_pos q.
Proof.
  unfold Qlt, round_binary64. simpl. intros H.
  destruct (Qnum q); try reflexivity; lia.
Qed.

(** The float quotient of a whole number below 2^52 by 20 has the floor of
    the exact quotient. *)
Lemma truediv_20_floor (W : Z) :
  0 < W < 2 ^ 52 ->
  exists r,
    round_binary64 (inject_Z W / 20) = Some r
    /\ (0 <= r)%Q /\ Qfloor r = W / 20.
Proof.
  intros [Hpos Hbig].
  set (q := (inject_Z W / 20)%Q).
  assert (HW1 : (1 <= inject_Z W)%Q)
    by (change 1%Q with (inject_Z 1); rewrite <- Zle_Qle; lia).
  assert (HW2 : (inject_Z W < pow2 52)%Q).
  { change (pow2 52) with (inject_Z (2 ^ 52)). rewrite <- Zlt_Qlt. lia. }
  assert (H52 : (pow2 52 == 4503599627370496)%Q) by reflexivity.
  assert (Hq20 : (20 * q == inject_Z W)%Q) by (unfold q; field).
  assert (Hq : (0 < q)%Q) by lra.
  rewrite (round_binary64_positive q Hq).
  destruct (ilog2_spec q Hq) as [H1 H2].
  assert (Hhi : ilog2 q < 52).
  { apply pow2_lt_inv. eapply Qle_lt_trans; [exact H1|]. lra. }
  assert (Hlo : -5 < ilog2 q + 1).
  { apply pow2_lt_inv. eapply Qle_lt_trans; [|exact H2].
    change (pow2 (-5)) with (1 # 32)%Q. lra. }
  destruct (round_binary64_pos_near q Hq) as [r [Hr [Hform [Ha Hb]]]];
    try lia.
  exists r. split; [exact Hr|].
  set (l := ilog2 q) in *.
  assert (Hl : (pow2 l == pow2 53 * pow2 (l - 53))%Q).
  { rewrite <- pow2_plus. now replace (53 + (l - 53)) with l by lia. }
  assert (H53 : (pow2 53 == 9007199254740992)%Q) by reflexivity.
  pose proof (pow2_pos (l - 53)) as Ph.
  pose proof (Z.div_mod W 20 ltac:(lia)) as Hdm.
  pose proof (Z.mod_pos_bound W 20 ltac:(lia)) as Hm.
  set (k := W / 20) in *. set (m := W mod 20) in *.
  assert (Hk0 : 0 <= k) by (apply Z.div_pos; lia).
  assert (HWk : (inject_Z W == 20 * inject_Z k + inject_Z m)%Q).
  { rewrite Hdm, inject_Z_plus, inject_Z_mult. reflexivity. }
  assert (Hk0' : (0 <= inject_Z k)%Q)
    by (change 0%Q with (inject_Z 0); rewrite <- Zle_Qle; lia).
  destruct (Z.eq_dec m 0) as [Hm0|Hm0].
  - (* a whole quotient is represented exactly *)
    assert (Hqk : (q == inject_Z k)%Q).
    { rewrite Hm0 in HWk. change (inject_Z 0) with 0%Q in HWk. lra. }
    assert (Hexact : (r == inject_Z k)%Q).
    { rewrite Hform.
      assert (He : 0 <= - (l - 52)) by lia.
      assert (Hinv : (pow2 (- (l - 52)) == / pow2 (l - 52))%Q)
        by apply Qpower_opp.
      pose proof (pow2_pos (l - 52)) as P1.
      assert (Hs : (q / pow2 (l - 52)
                    == inject_Z (k * 2 ^ (- (l - 52))))%Q).
      { rewrite inject_Z_mult, (pow2_Z _ He), Hqk, Hinv. reflexivity. }
      rewrite (round_half_even_Z _ _ Hs), inject_Z_mult, (pow2_Z _ He), Hinv.
      field. lra. }
    split; [lra|]. rewrite Hexact. apply Qfloor_Z.
  - assert (Hm1 : (1 <= inject_Z m)%Q)
      by (change 1%Q with (inject_Z 1); rewrite <- Zle_Qle; lia).
    assert (Hm19 : (inject_Z m <= 19)%Q)
      by (change 19%Q with (inject_Z 19); rewrite <- Zle_Qle; lia).
    assert (Hnear : (pow2 (l - 53) < 1 # 40)%Q) by nra.
    split; [lra|]. apply Qfloor_unique.
    + lra.
    + rewrite inject_Z_plus. change (inject_Z 1) with 1%Q. lra.
Qed.

Lemma py_truediv_20 (W : Z) :
  0 < W < 2 ^ 52 ->
  exists r, py_truediv (inject_Z W) 20 = Ok r /\ py_int r = W / 20.
Proof.
  intros HW. destruct (truediv_20_floor W HW) as [r [Hr [H0 Hf]]].
  exists r. unfold py_truediv. rewrite Hr. split; [reflexivity|].
  now rewrite py_int_nonneg.
Qed.

(** For whole screen dimensions below 2^52 the default bin counts are the
    floors of the exact quotients. *)
Lemma default_bins_integer (H W : Z) :
  0 < H < 2 ^ 52 -> 0 < W < 2 ^ 52 ->
  determine_bins PNone (inject_Z H, inject_Z W)
  = Ok (PInt (W / 20), PInt (H / 20)).
Proof.
  intros HH HW. unfold determine_bins.
  destruct (py_truediv_20 W HW) as [rx [-> <-]].
  destruct (py_truediv_20 H HH) as [ry [-> <-]].
  reflexivity.
Qed.

(** ** The heat map with integer bin counts *)

Lemma heatmap_sample_finite (s : screen) (i j k : nat)
      (rs : list (label * list f64)) :
  k = i \/ k = j ->
  forallb is_finite
    (map (cell k) (filter (heatmap_keeps s i j) (filter (not_na i j) rs)))
  = true.
Proof.
  intros Hk. apply forallb_forall. intros v Hv.
  apply in_map_iff in Hv as [r [<- Hr]].
  apply filter_In in Hr as [_ Hr].
  apply heatmap_keeps_finite in Hr. destruct Hk; subst k; tauto.
Qed.

(** [plot_heatmap] without AOI definitions on a frame with gaze columns,
    when both bin entries are integers: the x count is checked and its
    edges built first, then the y count, then the count matrix. *)
Lemma plot_heatmap_integer_bins
    (validation : list aoi -> screen -> result unit) (limits : numpy_limits)
    (df d : DataFrame) (s : screen) (i j : nat) (bins : pyval) (bx by_ : Z) :
  col_pos "xpos" (columns df) = Some i ->
  col_pos "ypos" (columns df) = Some j ->
  heatmap_filter df s = Ok d ->
  determine_bins bins s = Ok (PInt bx, PInt by_) ->
  plot_heatmap validation limits df s None bins =
  if bx <? 1 then Raise bins_not_positive
  else match linspace_limit limits bx with
       | Some e => Raise (resource_exn e)
       | None =>
           if by_ <? 1 then Raise bins_not_positive
           else match linspace_limit limits by_ with
                | Some e => Raise (resource_exn e)
                | None =>
                    match bincount_limit limits (bx + 2) (by_ + 2) with
                    | Some e => Raise (resource_exn e)
                    | None =>
                        Ok (heatmap_image
                              (mkHistogram (Uniform bx) (Uniform by_)
                                 (map (cell i) (rows d))
                                 (map (cell j) (rows d))) s
                            ++ heatmap_labels)
                    end
                end
       end.
Proof.
  intros Hx Hy Hd Hb. unfold plot_heatmap. rewrite Hd. simpl.
  destruct s as [h w]. rewrite Hb. simpl.
  rewrite (heatmap_filter_rows df (h, w) i j Hx Hy) in Hd.
  injection Hd as Hd. subst d. unfold getcol. simpl. rewrite Hx, Hy. simpl.
  unfold np_histogram2d, np_bins. simpl scalar_of.
  rewrite (heatmap_sample_finite (h, w) i j i), (heatmap_sample_finite (h, w) i j j)
    by auto.
  destruct (bx <? 1); [reflexivity|].
  destruct (linspace_limit limits bx); [reflexivity|]. simpl.
  destruct (by_ <? 1); [reflexivity|].
  destruct (linspace_limit limits by_); [reflexivity|]. simpl.
  destruct (bincount_limit limits (bx + 2) (by_ + 2)); reflexivity.
Qed.

(** ** The default bins and the [bins] argument *)

(** At a width of 10^17 - 1 the float quotient rounds up: the x count is
    5 * 10^15, one more than the floor of the exact quotient. *)
Lemma default_bins_round_up :
  determine_bins PNone (20, 99999999999999999)%Q
  = Ok (PInt 5000000000000000, PInt 1)
  /\ Qfloor (99999999999999999 / 20) = 4999999999999999.
Proof. split; vm_compute; reflexivity. Qed.

Lemma div_20_ge_1 (W : Z) : 0 < W -> (1 <= W / 20 <-> 20 <= W).
Proof.
  intros HW. split; intros H.
  - destruct (Z_lt_ge_dec W 20) as [Hlt|Hge]; [|lia].
    rewrite Z.div_small in H by lia. lia.
  - apply Z.div_le_lower_bound; lia.
Qed.

(** C10 (amended): for whole screen dimensions, positive and below 2^52,
    and [bins=None], the bin counts are floor(width / 20) in x and
    floor(height / 20) in y.  A call on a frame with gaze columns that
    returns had both dimensions at least 20: below 20 the count is 0 and
    the histogram raises.  With both at least 20 and the edges and the
    count matrix within what numpy can build, the call returns the image
    of the histogram with floor(width / 20) bins in x and
    floor(height / 20) in y. *)
Theorem default_bins_need_20_pixels
    (validation : list aoi -> screen -> result unit) (limits : numpy_limits)
    (df : DataFrame) (i j : nat) (H W : Z) :
  0 < H < 2 ^ 52 -> 0 < W < 2 ^ 52 ->
  col_pos "xpos" (columns df) = Some i ->
  col_pos "ypos" (columns df) = Some j ->
  determine_bins PNone (inject_Z H, inject_Z W)
  = Ok (PInt (Qfloor (inject_Z W / 20)), PInt (Qfloor (inject_Z H / 20)))
  /\ (succeeds (plot_heatmap validation limits df (inject_Z H, inject_Z W)
                  None PNone) ->
      20 <= W /\ 20 <= H)
  /\ (W < 20 ->
      Qfloor (inject_Z W / 20) = 0
      /\ plot_heatmap validation limits df (inject_Z H, inject_Z W) None PNone
         = Raise bins_not_positive)
  /\ (H < 20 ->
      Qfloor (inject_Z H / 20) = 0
      /\ is_ok (plot_heatmap validation limits df (inject_Z H, inject_Z W)
                  None PNone) = false)
  /\ (20 <= W -> 20 <= H ->
      linspace_limit limits (Qfloor (inject_Z W / 20)) = None ->
      linspace_limit limits (Qfloor (inject_Z H / 20)) = None ->
      bincount_limit limits (Qfloor (inject_Z W / 20) + 2)
                            (Qfloor (inject_Z H / 20) + 2) = None ->
      exists d,
        heatmap_filter df (inject_Z H, inject_Z W) = Ok d
        /\ plot_heatmap validation limits df (inject_Z H, inject_Z W)
             None PNone
           = Ok (heatmap_image
                   (mkHistogram (Uniform (Qfloor (inject_Z W / 20)))
                                (Uniform (Qfloor (inject_Z H / 20)))
                                (map (cell i) (rows d))
                                (map (cell j) (rows d)))
                   (inject_Z H, inject_Z W)
                 ++ heatmap_labels)).
Proof.
  intros HH HW Hx Hy.
  change 20%Q with (inject_Z 20).
  rewrite <- (Zdiv_Qdiv W 20), <- (Zdiv_Qdiv H 20).
  assert (Hbins := default_bins_integer H W HH HW).
  assert (Hd := heatmap_filter_rows df (inject_Z H, inject_Z W) i j Hx Hy).
  assert (Hp := plot_heatmap_integer_bins validation limits df _ _ i j PNone
                  _ _ Hx Hy Hd Hbins).
  assert (HcW := div_20_ge_1 W ltac:(lia)).
  assert (HcH := div_20_ge_1 H ltac:(lia)).
  split; [exact Hbins|]. split; [|split; [|split]].
  - intros [ax Hax]. rewrite Hp in Hax.
    destruct (W / 20 <? 1) eqn:Ew; [discriminate|].
    destruct (linspace_limit limits (W / 20)); [discriminate|].
    destruct (H / 20 <? 1) eqn:Eh; [discriminate|].
    apply Z.ltb_ge in Ew, Eh. split; [now apply HcW | now apply HcH].
  - intros Hlt. rewrite Hp, (Z.div_small W 20) by lia. split; reflexivity.
  - intros Hlt. rewrite Hp, (Z.div_small H 20) by lia. split; [reflexivity|].
    destruct (W / 20 <? 1); [reflexivity|].
    destruct (linspace_limit limits (W / 20)); reflexivity.
  - intros Hw20 Hh20 Lx Ly Lxy. eexists. split; [exact Hd|].
    rewrite Hp, Lx, Ly, Lxy.
    apply HcW, Z.ltb_ge in Hw20. apply HcH, Z.ltb_ge in Hh20.
    now rewrite Hw20, Hh20.
Qed.

Lemma default_bins_need_20_pixels_witness :
  determine_bins PNone (40, 100)%Q = Ok (PInt 5, PInt 2)
  /\ is_ok (plot_heatmap accept_aois small_machine edge_frame (10, 100)%Q
              None PNone) = false
  /\ exists d,
       heatmap_filter edge_frame (40, 100)%Q = Ok d
       /\ plot_heatmap accept_aois small_machine edge_frame (40, 100)%Q
            None PNone
          = Ok (heatmap_image
                  (mkHistogram (Uniform 5) (Uniform 2)
                     (map (cell 0) (rows d)) (map (cell 1) (rows d)))
                  (40, 100)%Q
                ++ heatmap_labels).
Proof.
  destruct (default_bins_need_20_pixels accept_aois small_machine edge_frame
              0 1 40 100 ltac:(lia) ltac:(lia) eq_refl eq_refl)
    as [Hb [_ [_ [_ Hok]]]].
  destruct (default_bins_need_20_pixels accept_aois small_machine edge_frame
              0 1 10 100 ltac:(lia) ltac:(lia) eq_refl eq_refl)
    as [_ [_ [_ [Hsmall _]]]].
  split; [exact Hb | split].
  - apply Hsmall. lia.
  - apply Hok; try lia; vm_compute; reflexivity.
Defined.

Lemma resource_exn_not_bins_error (e : resource_error) :
  resource_exn e <> bins_error.
Proof. unfold bins_error. destruct e; discriminate. Qed.

Lemma np_bins_not_bins_error (limits : numpy_limits) (v : pyval)
      (sample : list f64) :
  np_bins limits v sample <> Raise bins_error.
Proof.
  unfold np_bins, bins_error.
  destruct (scalar_of v) as [|n|x|t|k items|item].
  - discriminate.
  - destruct (n <? 1); [discriminate|].
    destruct (forallb is_finite sample); [|discriminate].
    destruct (linspace_limit limits n) as [e|]; [|discriminate].
    destruct e; discriminate.
  - destruct (f64_lt x (Fin 1)); [discriminate|].
    destruct (forallb is_finite sample); discriminate.
  - discriminate.
  - destruct (all_numbers items) as [e|]; [|discriminate].
    destruct (monotonic e); discriminate.
  - discriminate.
Qed.

Lemma last_edge_error (b : binning) (e : exn) :
  last_edge b = Raise e -> e <> bins_error.
Proof.
  unfold bins_error. destruct b as [n|[|v l]]; simpl; intros H;
    try discriminate H.
  injection H as <-. discriminate.
Qed.

Lemma np_histogram2d_not_bins_error (limits : numpy_limits)
      (x y : list f64) (bx by_ : pyval) :
  np_histogram2d limits x y bx by_ <> Raise bins_error.
Proof.
  unfold np_histogram2d.
  pose proof (np_bins_not_bins_error limits bx x) as Hx.
  pose proof (np_bins_not_bins_error limits by_ y) as Hy.
  destruct (np_bins limits bx x) as [b1|];
    [|simpl; intros H; apply Hx; congruence]. simpl.
  destruct (np_bins limits by_ y) as [b2|];
    [|simpl; intros H; apply Hy; congruence]. simpl.
  destruct (last_edge b1) as [[]|e1] eqn:E1; simpl.
  - destruct (last_edge b2) as [[]|e2] eqn:E2; simpl.
    + destruct (bincount_limit limits (nbin b1) (nbin b2)) as [e|];
        [|discriminate].
      intros H. injection H as H. now apply resource_exn_not_bins_error in H.
    + intros H. injection H as H. now apply last_edge_error in E2.
  - intros H. injection H as H. now apply last_edge_error in E1.
Qed.

Lemma py_truediv_error (a b : Q) (e : exn) :
  py_truediv a b = Raise e -> e <> bins_error.
Proof.
  unfold py_truediv, bins_error.
  destruct (round_binary64 (a / b)); intros H; [discriminate H|].
  injection H as <-. discriminate.
Qed.

(** For a [bins] that has a length or is no sequence at all, the check of
    lines 180-188 raises exactly on what is neither None, nor an integer,
    nor a sequence of length 2. *)
Lemma determine_bins_malformed (bins : pyval) (s : screen) :
  (forall item, bins <> PScalarArray item) ->
  (determine_bins bins s = Raise bins_error
   <-> bins <> PNone /\ is_integral bins = false
       /\ ~ (is_sequence bins = true /\ py_len bins = Ok 2%nat)).
Proof.
  intros Hsized. unfold determine_bins. destruct s as [h w].
  destruct bins as [|n|x|t|k items|item].
  - split; [|intros [H _]; now contradiction H].
    destruct (py_truediv w 20) as [qx|ex] eqn:Ex; simpl.
    + destruct (py_truediv h 20) as [qy|ey] eqn:Ey; simpl;
        [discriminate|].
      intros H. injection H as H. now apply py_truediv_error in Ey.
    + intros H. injection H as H. now apply py_truediv_error in Ex.
  - simpl. split; [discriminate | intros [_ [H _]]; discriminate].
  - simpl. split; [intros _|reflexivity].
    repeat split; try discriminate. intros [H _]. discriminate.
  - simpl. split; [intros _|reflexivity].
    repeat split; try discriminate. intros [H _]. discriminate.
  - destruct items as [|a [|b [|c items]]]; simpl;
      (split; [intros H | intros [_ [_ H]]]);
      try discriminate; try reflexivity;
      try (repeat split; try discriminate; intros [_ Hl]; discriminate).
    exfalso. apply H. split; reflexivity.
  - now contradiction (Hsized item).
Qed.

(** Zero is an integer, and [plot_heatmap] raises a ValueError about [bins]
    for it, from numpy. *)
Lemma integer_bins_value_error :
  is_integral (PInt 0) = true
  /\ plot_heatmap accept_aois small_machine edge_frame screen_100 None (PInt 0)
     = Raise (ValueError "`bins` must be positive, when an integer").
Proof. split; reflexivity. Qed.

(** An ndarray of no dimension has no length: line 185 raises TypeError. *)
Lemma scalar_array_bins_type_error :
  plot_heatmap accept_aois small_machine edge_frame screen_100 None
    (PScalarArray (PInt 5))
  = Raise (TypeError "len() of unsized object").
Proof. reflexivity. Qed.

(** C5 (amended): on a frame with gaze columns, for a [bins] that is not an
    ndarray of no dimension, [plot_heatmap] raises its own ValueError
    (bins must be an integer or a tuple of two integers) exactly when
    [bins] is not None, not an integer and not a tuple, list or array of
    length 2.  An integer below 1 passes that check and is rejected by
    numpy with a ValueError of its own.  None gives the default counts; an
    integer gives that count to both axes; a sequence of two gives its
    first item to x and its second to y; and, within what numpy can build,
    the histogram drawn has exactly those counts. *)
Theorem bins_argument_handling
    (validation : list aoi -> screen -> result unit) (limits : numpy_limits)
    (df : DataFrame) (s : screen) (i j : nat) (bins : pyval) :
  col_pos "xpos" (columns df) = Some i ->
  col_pos "ypos" (columns df) = Some j ->
  ((forall item, bins <> PScalarArray item) ->
   (plot_heatmap validation limits df s None bins = Raise bins_error
    <-> bins <> PNone /\ is_integral bins = false
        /\ ~ (is_sequence bins = true /\ py_len bins = Ok 2%nat)))
  /\ (forall aoi_definitions,
        determine_bins bins s = Raise bins_error ->
        plot_heatmap validation limits df s aoi_definitions bins
        = Raise bins_error)
  /\ (forall n, n < 1 ->
        plot_heatmap validation limits df s None (PInt n)
        = Raise bins_not_positive)
  /\ (forall H W,
        0 < H < 2 ^ 52 -> 0 < W < 2 ^ 52 -> s = (inject_Z H, inject_Z W) ->
        determine_bins PNone s
        = Ok (PInt (Qfloor (inject_Z W / 20)),
              PInt (Qfloor (inject_Z H / 20))))
  /\ (forall n, determine_bins (PInt n) s = Ok (PInt n, PInt n))
  /\ (forall k bins_x bins_y,
        determine_bins (PSeq k [bins_x; bins_y]) s = Ok (bins_x, bins_y))
  /\ (forall n, 1 <= n ->
        linspace_limit limits n = None ->
        bincount_limit limits (n + 2) (n + 2) = None ->
        exists d,
          heatmap_filter df s = Ok d
          /\ plot_heatmap validation limits df s None (PInt n)
             = Ok (heatmap_image
                     (mkHistogram (Uniform n) (Uniform n)
                        (map (cell i) (rows d)) (map (cell j) (rows d))) s
                   ++ heatmap_labels))
  /\ (forall k n m, 1 <= n -> 1 <= m ->
        linspace_limit limits n = None ->
        linspace_limit limits m = None ->
        bincount_limit limits (n + 2) (m + 2) = None ->
        exists d,
          heatmap_filter df s = Ok d
          /\ plot_heatmap validation limits df s None (PSeq k [PInt n; PInt m])
             = Ok (heatmap_image
                     (mkHistogram (Uniform n) (Uniform m)
                        (map (cell i) (rows d)) (map (cell j) (rows d))) s
                   ++ heatmap_labels)).
Proof.
  intros Hx Hy.
  assert (Hd := heatmap_filter_rows df s i j Hx Hy).
  assert (Hraise : forall aoi_definitions,
            determine_bins bins s = Raise bins_error ->
            plot_heatmap validation limits df s aoi_definitions bins
            = Raise bins_error).
  { intros a H. unfold plot_heatmap. rewrite Hd. simpl.
    destruct s as [h w]. rewrite H. reflexivity. }
  assert (Hint : forall b n m,
            determine_bins b s = Ok (PInt n, PInt m) ->
            1 <= n -> 1 <= m ->
            linspace_limit limits n = None ->
            linspace_limit limits m = None ->
            bincount_limit limits (n + 2) (m + 2) = None ->
            exists d,
              heatmap_filter df s = Ok d
              /\ plot_heatmap validation limits df s None b
                 = Ok (heatmap_image
                         (mkHistogram (Uniform n) (Uniform m)
                            (map (cell i) (rows d)) (map (cell j) (rows d))) s
                       ++ heatmap_labels)).
  { intros b n m Hb Hn Hm Ln Lm Lnm. eexists. split; [exact Hd|].
    rewrite (plot_heatmap_integer_bins validation limits df _ s i j b n m
               Hx Hy Hd Hb).
    apply Z.ltb_ge in Hn, Hm. now rewrite Hn, Ln, Hm, Lm, Lnm. }
  split; [|split; [exact Hraise|]].
  - intros Hsized. rewrite <- (determine_bins_malformed bins s Hsized).
    split; [|apply Hraise].
    intros H. unfold plot_heatmap in H. rewrite Hd in H.
    cbn [bind] in H. destruct s as [h w].
    destruct (determine_bins bins (h, w)) as [[bx by_]|e] eqn:Eb.
    + exfalso. cbn [bind] in H. unfold getcol in H. cbn [columns] in H.
      rewrite Hx, Hy in H. cbn [bind] in H.
      match type of H with
      | context [np_histogram2d limits ?x ?y bx by_] =>
          pose proof (np_histogram2d_not_bins_error limits x y bx by_) as Hn;
          destruct (np_histogram2d limits x y bx by_)
      end; cbn [bind] in H; [discriminate H | congruence].
    + cbn [bind] in H. congruence.
  - split; [|split; [|split; [|split; [|split]]]].
    + intros n Hn.
      rewrite (plot_heatmap_integer_bins validation limits df _ s i j
                 (PInt n) n n Hx Hy Hd ltac:(destruct s; reflexivity)).
      apply Z.ltb_lt in Hn. now rewrite Hn.
    + intros H W HH HW ->. change 20%Q with (inject_Z 20).
      rewrite <- (Zdiv_Qdiv W 20), <- (Zdiv_Qdiv H 20).
      now apply default_bins_integer.
    + intros n. destruct s. reflexivity.
    + intros k a b. destruct s. reflexivity.
    + intros n Hn Ln Lnn. apply (Hint (PInt n)); auto. destruct s; reflexivity.
    + intros k n m Hn Hm Ln Lm Lnm.
      apply (Hint (PSeq k [PInt n; PInt m])); auto. destruct s; reflexivity.
Qed.

Lemma bins_argument_handling_witness :
  plot_heatmap accept_aois small_machine edge_frame screen_100 None
    (PFloat (Fin 5))
  = Raise bins_error
  /\ plot_heatmap accept_aois small_machine edge_frame screen_100 None
       (PSeq Tuple [PInt 4; PInt 5; PInt 6])
     = Raise bins_error
  /\ exists d,
       heatmap_filter edge_frame screen_100 = Ok d
       /\ plot_heatmap accept_aois small_machine edge_frame screen_100 None
            (PSeq PyList [PInt 4; PInt 7])
          = Ok (heatmap_image
                  (mkHistogram (Uniform 4) (Uniform 7)
                     (map (cell 0) (rows d)) (map (cell 1) (rows d)))
                  screen_100
                ++ heatmap_labels).
Proof.
  split; [|split].
  - apply (bins_argument_handling accept_aois small_machine edge_frame
             screen_100 0 1 (PFloat (Fin 5)) eq_refl eq_refl);
      first [ intros item; discriminate
            | repeat split; try discriminate;
              try (intros [H1 H2]; discriminate) ].
  - apply (bins_argument_handling accept_aois small_machine edge_frame
             screen_100 0 1 (PSeq Tuple [PInt 4; PInt 5; PInt 6])
             eq_refl eq_refl);
      first [ intros item; discriminate
            | repeat split; try discriminate;
              try (intros [H1 H2]; discriminate) ].
  - destruct (bins_argument_handling accept_aois small_machine edge_frame
                screen_100 0 1 PNone eq_refl eq_refl)
      as [_ [_ [_ [_ [_ [_ [_ Hpair]]]]]]].
    apply (Hpair PyList 4 7); reflexivity || lia.
Defined.

(** ** AOI outlines and membership *)

Lemma overlay_one_outline (ax : Axes) (a : aoi) (d : AOIDefinition) :
  define_aoi a = Ok d -> overlay_one ax a = Ok (ax ++ [outline d]).
Proof.
  unfold define_aoi, overlay_one.
  destruct (String.eqb (lower (shape a)) "rectangle").
  - destruct (coordinates a) as [|x1 [|x2 [|y1 [|y2 [|z l]]]]]; simpl;
      intros H; try discriminate. now injection H as <-.
  - destruct (String.eqb (lower (shape a)) "circle"); [|discriminate].
    destruct (coordinates a) as [|cx [|cy [|r [|z l]]]]; simpl;
      intros H; try discriminate. now injection H as <-.
Qed.

Lemma overlay_loop_outlines (aois : list aoi) :
  forall (ds : list AOIDefinition) (ax : Axes),
    define_all aois = Ok ds ->
    overlay_loop ax aois = Ok (ax ++ map outline ds).
Proof.
  induction aois as [|a aois IH]; simpl; intros ds ax H.
  - injection H as <-. simpl. now rewrite app_nil_r.
  - destruct (define_aoi a) as [d|] eqn:Ed; [|discriminate]. simpl in H.
    destruct (define_all aois) as [ds'|] eqn:Eds; [|discriminate].
    injection H as <-.
    rewrite (overlay_one_outline ax a d Ed). simpl.
    rewrite (IH ds' _ eq_refl), <- app_assoc. reflexivity.
Qed.

(** C7: [overlay_aoi] draws a rectangle through the [int()] of its four
    coordinates and a circle from its centre and radius as they are; over a
    list of well-formed AOIs, what it adds to the axes is, in order, the
    outline of each AOI in canonical form (integer rectangle bounds,
    unchanged circle). *)
Theorem overlay_aoi_normalizes
    (validation : list aoi -> screen -> result unit)
    (aois : list aoi) (ds : list AOIDefinition) (s : screen) (ax : Axes) :
  validation aois s = Ok tt ->
  screen_dimensions_validation s = Ok tt ->
  define_all aois = Ok ds ->
  overlay_aoi validation aois s ax = Ok (ax ++ map outline ds)
  /\ (forall a x1 x2 y1 y2,
        lower (shape a) = "rectangle"%string ->
        coordinates a = [x1; x2; y1; y2] ->
        overlay_one ax a
        = Ok (ax ++ [PlotPolyline
                       [py_int x1; py_int x2; py_int x2; py_int x1; py_int x1]
                       [py_int y1; py_int y1; py_int y2; py_int y2; py_int y1]]))
  /\ (forall a cx cy r,
        lower (shape a) = "circle"%string ->
        coordinates a = [cx; cy; r] ->
        overlay_one ax a = Ok (ax ++ [PlotCircle cx cy r 100])).
Proof.
  intros Hv Hs Hd. split; [|split].
  - unfold overlay_aoi. rewrite Hv, Hs. simpl.
    now apply overlay_loop_outlines.
  - intros a x1 x2 y1 y2 Hsh Hco. unfold overlay_one.
    rewrite Hsh, Hco. reflexivity.
  - intros a cx cy r Hsh Hco. unfold overlay_one.
    rewrite Hsh, Hco. reflexivity.
Qed.

Lemma overlay_aoi_normalizes_witness :
  overlay_aoi accept_aois sample_aois screen_100 []
  = Ok [PlotPolyline [10; 20; 20; 10; 10] [10; 10; 20; 20; 10];
        PlotCircle (101 # 2) 50 10 100].
Proof.
  apply (overlay_aoi_normalizes accept_aois sample_aois
           [Rectangle 10 20 10 20; Circle (101 # 2) 50 10] screen_100 []);
    reflexivity.
Defined.

(** C8: a point is inside a rectangle AOI exactly when x1 <= x < x2 and
    y1 <= y < y2, and inside a circle AOI exactly when
    (x - cx)^2 + (y - cy)^2 <= r^2; for the rectangle (10, 20, 10, 20) the
    points (10, 10) and (19, 19) are inside and (20, 20) is outside. *)
Theorem membership_semantics :
  (forall x1 x2 y1 y2 x y,
     inside (Rectangle x1 x2 y1 y2) x y = true
     <-> (inject_Z x1 <= x /\ x < inject_Z x2
          /\ inject_Z y1 <= y /\ y < inject_Z y2)%Q)
  /\ (forall cx cy r x y,
        inside (Circle cx cy r) x y = true
        <-> ((x - cx) * (x - cx) + (y - cy) * (y - cy) <= r * r)%Q)
  /\ define_aoi (mkAoi "rectangle" [10; 20; 10; 20]%Q)
     = Ok (Rectangle 10 20 10 20)
  /\ inside (Rectangle 10 20 10 20) 10 10 = true
  /\ inside (Rectangle 10 20 10 20) 19 19 = true
  /\ inside (Rectangle 10 20 10 20) 20 20 = false.
Proof.
  split; [|split; [|repeat split]].
  - intros x1 x2 y1 y2 x y. unfold inside, Qltb.
    rewrite !andb_true_iff, !negb_true_iff, !Qle_bool_iff.
    rewrite <- !not_true_iff_false, !Qle_bool_iff.
    split.
    + intros [[[H1 H2] H3] H4]. auto using Qnot_le_lt.
    + intros [H1 [H2 [H3 H4]]]. auto using Qlt_not_le.
  - intros cx cy r x y. unfold inside. apply Qle_bool_iff.
Qed.

(** * Further properties of plotting.py *)

(** ** Cleaning, whatever the index *)

Lemma np_where_from_nth (m : list bool) :
  forall s p,
    In p (np_where_from s m)
    <-> exists k, nth_error m k = Some true /\ p = s + Z.of_nat k.
Proof.
  induction m as [|b m IH]; intros s p; simpl.
  - split; [contradiction|]. intros [[|k] [H _]]; discriminate.
  - assert (Hshift : In p (np_where_from (s + 1) m)
                     <-> exists k, nth_error m k = Some true
                                   /\ p = s + Z.of_nat (S k)).
    { rewrite IH. split; intros [k [Hk ->]]; exists k; split; auto; lia. }
    destruct b; simpl; rewrite Hshift; split.
    + intros [<-|[k [Hk ->]]].
      * exists O. split; [reflexivity | simpl; lia].
      * exists (S k). now split.
    + intros [[|k] [Hk ->]].
      * left. simpl. lia.
      * right. exists k. now split.
    + intros [k [Hk ->]]. exists (S k). now split.
    + intros [[|k] [Hk ->]]; [discriminate|]. exists k. now split.
Qed.

Lemma out_of_bounds_flagged (s : screen) (i j : nat)
      (rs : list (label * list f64)) (p : Z) :
  In p (out_of_bounds (map (cell i) rs) (map (cell j) rs) s)
  <-> flagged_position s i j rs p.
Proof.
  rewrite out_of_bounds_In, np_where_from_nth. unfold flagged_position.
  split.
  - intros [k [Hk ->]]. rewrite nth_error_map in Hk.
    destruct (nth_error rs k) as [r|] eqn:Er; [|discriminate].
    injection Hk as Hk. exists k, r. auto.
  - intros [k [r [Hr [Hf ->]]]]. exists k. split; [|reflexivity].
    rewrite nth_error_map, Hr. simpl. now rewrite Hf.
Qed.

(** X1: whatever the index, [clean_data] keeps the columns, and keeps a row
    exactly when the row's LABEL is not the POSITION of a flagged row. *)
Theorem clean_data_keeps_by_label
    (df clean : DataFrame) (s : screen) (i j : nat) :
  coordinate_columns df = Some (i, j) ->
  clean_data df s = Ok clean ->
  columns clean = columns df
  /\ forall r, In r (rows clean)
               <-> In r (rows df)
                   /\ ~ flagged_position s i j (rows df) (fst r).
Proof.
  intros Hcols Hclean. split; [now apply (clean_data_columns df clean s)|].
  intros r. unfold clean_data in Hclean.
  rewrite dataframe_validation_columns, Hcols in Hclean. simpl in Hclean.
  unfold drop in Hclean. destruct (forallb _ _); [|discriminate].
  injection Hclean as <-. simpl.
  rewrite filter_In, negb_true_iff, <- not_true_iff_false, mem_label_In.
  now rewrite out_of_bounds_flagged.
Qed.

Lemma clean_data_keeps_by_label_witness :
  In (1, [Fin (-5); Fin 10]) (rows sorted_frame)
  /\ ~ flagged_position screen_100 0 1 (rows sorted_frame) 1.
Proof.
  apply (clean_data_keeps_by_label sorted_frame
           (mkDataFrame gaze_columns [(1, [Fin (-5); Fin 10])])
           screen_100 0 1 eq_refl eq_refl).
  simpl. now left.
Defined.

(** X2: on a frame with coordinate columns [clean_data] raises KeyError
    exactly when the position of some flagged row is not a label of the
    frame, and returns otherwise. *)
Theorem clean_data_key_error_iff (df : DataFrame) (s : screen) (i j : nat) :
  coordinate_columns df = Some (i, j) ->
  (clean_data df s = Raise (KeyError "not found in axis")
   <-> exists p, flagged_position s i j (rows df) p /\ ~ In p (index df))
  /\ (succeeds (clean_data df s)
      <-> forall p, flagged_position s i j (rows df) p -> In p (index df)).
Proof.
  intros Hcols. unfold clean_data.
  rewrite dataframe_validation_columns, Hcols. simpl. unfold drop.
  destruct (forallb _ _) eqn:Hall.
  - rewrite forallb_forall in Hall. split; split.
    + discriminate.
    + intros [p [Hp Hn]]. exfalso. apply Hn. apply mem_label_In, Hall.
      now apply out_of_bounds_flagged.
    + intros _ p Hp. apply mem_label_In, Hall.
      now apply out_of_bounds_flagged.
    + intros _. eexists. reflexivity.
  - assert (Hex : exists p, flagged_position s i j (rows df) p
                            /\ ~ In p (index df)).
    { apply not_true_iff_false in Hall.
      destruct (existsb (fun l => negb (mem_label l (index df)))
                  (out_of_bounds (map (cell i) (rows df))
                                 (map (cell j) (rows df)) s)) eqn:Hex.
      - apply existsb_exists in Hex as [p [Hp Hn]]. exists p. split.
        + now apply out_of_bounds_flagged.
        + rewrite <- mem_label_In. apply negb_true_iff in Hn. congruence.
      - exfalso. apply Hall. apply forallb_forall. intros p Hp.
        destruct (mem_label p (index df)) eqn:E; [reflexivity|].
        assert (Ht : existsb (fun l => negb (mem_label l (index df)))
                       (out_of_bounds (map (cell i) (rows df))
                                      (map (cell j) (rows df)) s) = true).
        { apply existsb_exists. exists p. split; [exact Hp|]. now rewrite E. }
        congruence. }
    split; split.
    + intros _. exact Hex.
    + reflexivity.
    + intros [c Hc]. discriminate.
    + intros H. exfalso. destruct Hex as [p [Hp Hn]]. now apply Hn, H.
Qed.

Lemma clean_data_key_error_iff_witness :
  clean_data sliced_frame screen_100 = Raise (KeyError "not found in axis").
Proof.
  apply (clean_data_key_error_iff sliced_frame screen_100 0 1 eq_refl).
  exists 0. split.
  - exists O, (5, [Fin (-5); Fin 10]). repeat split.
  - simpl. intros [H|[]]. discriminate.
Defined.

Lemma insert_unique_sorted (x : Z) (l : list Z) :
  StronglySorted Z.lt l -> StronglySorted Z.lt (insert_unique x l).
Proof.
  induction l as [|y l IH]; simpl; intros Hs.
  - repeat constructor.
  - apply StronglySorted_inv in Hs as [Hl Hy].
    destruct (x <? y) eqn:Hlt.
    + apply Z.ltb_lt in Hlt. constructor.
      * now constructor.
      * constructor; [exact Hlt|].
        rewrite Forall_forall in *. intros z Hz. apply Hy in Hz. lia.
    + destruct (x =? y) eqn:Heq.
      * now constructor.
      * apply Z.ltb_ge in Hlt. apply Z.eqb_neq in Heq. constructor.
        -- now apply IH.
        -- rewrite Forall_forall in *. intros z Hz.
           apply In_insert_unique in Hz as [->|Hz]; [lia | now apply Hy].
Qed.

Lemma np_unique_sorted (l : list Z) : StronglySorted Z.lt (np_unique l).
Proof.
  induction l as [|x l IH]; simpl; [constructor|].
  now apply insert_unique_sorted.
Qed.

Lemma range_from_bounds (n : nat) :
  forall s p, In p (range_from s n) -> s <= p < s + Z.of_nat n.
Proof.
  induction n as [|n IH]; simpl; intros s p H; [contradiction|].
  destruct H as [<-|H]; [lia|]. apply IH in H. lia.
Qed.

(** X3: the positions [plot_as_scatter] hands to [drop] are strictly
    increasing (so without duplicates: a sample off the screen in both x
    and y is listed once) and each is a position within the coordinate
    sequences. *)
Theorem out_of_bounds_sorted_in_range (x_coord y_coord : list f64) (s : screen) :
  StronglySorted Z.lt (out_of_bounds x_coord y_coord s)
  /\ forall p, In p (out_of_bounds x_coord y_coord s) ->
       0 <= p < Z.of_nat (Nat.max (List.length x_coord) (List.length y_coord)).
Proof.
  split; [apply np_unique_sorted|].
  intros p Hp. unfold out_of_bounds, np_where in Hp.
  rewrite In_np_unique, in_app_iff, !mask_or_map in Hp.
  destruct Hp as [Hp|Hp]; apply np_where_from_range, range_from_bounds in Hp;
    rewrite length_map in Hp; lia.
Qed.

(** ** The scatter plot on the default index *)



(** ** Saving and marker sizes *)




Lemma fixation_duration_length (df : DataFrame)
      (rs : list (label * list f64)) :
  forall ds, fixation_duration df rs = Ok ds ->
             List.length ds = List.length rs.
Proof.
  induction rs as [|r rs IH]; simpl; intros ds H.
  - now injection H as <-.
  - bind_cases H. injection H as <-. simpl. f_equal. now apply IH.
Qed.

(** X6: the scatter call gets one x and one y per remaining row, a single
    marker size on gaze data and, on fixation data, one marker size per
    remaining row. *)
Theorem scatter_points_one_size_per_point
    (clean : DataFrame) (marker_size : Q) (ax ax' : Axes) :
  scatter_points clean marker_size ax = Ok ax' ->
  exists xs ys sz,
    ax' = ax ++ [Scatter xs ys sz]
    /\ List.length xs = List.length (rows clean)
    /\ List.length ys = List.length (rows clean)
    /\ (if has_col clean "axp" && has_col clean "ayp"
        then exists per_point,
               sz = PerPoint per_point
               /\ List.length per_point = List.length (rows clean)
        else sz = Scalar marker_size).
Proof.
  unfold scatter_points. intros H.
  destruct (has_col clean "axp" && has_col clean "ayp").
  - bind_cases H. injection H as <-.
    unfold getcol in *.
    destruct (col_pos "axp" (columns clean)); [|discriminate].
    destruct (col_pos "ayp" (columns clean)); [|discriminate].
    match goal with
    | Hx : Ok _ = Ok a1, Hy : Ok _ = Ok a2 |- _ =>
        injection Hx as <-; injection Hy as <-
    end.
    do 3 eexists. split; [reflexivity|].
    rewrite !length_map. repeat split. eexists. split; [reflexivity|].
    rewrite !length_map. now apply (fixation_duration_length clean).
  - bind_cases H. injection H as <-. unfold getcol in *.
    destruct (col_pos "xpos" (columns clean)); [|discriminate].
    destruct (col_pos "ypos" (columns clean)); [|discriminate].
    match goal with
    | Hx : Ok _ = Ok a, Hy : Ok _ = Ok a0 |- _ =>
        injection Hx as <-; injection Hy as <-
    end.
    do 3 eexists. split; [reflexivity|].
    rewrite !length_map. repeat split.
Qed.

Lemma scatter_points_one_size_per_point_witness :
  exists xs ys sz,
    scatter_axes screen_100
    ++ [Scatter [Fin 10; Fin 20] [Fin 5; Fin 5]
          (PerPoint [Fin (4500000 # 25000); Fin (1800000 # 25000)])]
    = scatter_axes screen_100 ++ [Scatter xs ys sz]
    /\ List.length xs = 2%nat /\ List.length ys = 2%nat
    /\ exists per_point,
         sz = PerPoint per_point /\ List.length per_point = 2%nat.
Proof.
  apply (scatter_points_one_size_per_point two_fixations 60
           (scatter_axes screen_100)).
  reflexivity.
Defined.

Lemma py_max_nan_first (l : list f64) : py_max (NaN :: l) = Ok NaN.
Proof.
  unfold py_max. f_equal.
  induction l as [|v l IH]; simpl; [reflexivity|].
  destruct v; exact IH.
Qed.

Lemma f64_sub_nan (e s : f64) : e = NaN \/ s = NaN -> f64_sub e s = NaN.
Proof. intros [->| ->]; [reflexivity | now destruct e]. Qed.

(** X7: on fixation data, when the first remaining row has no start time or
    no end time (NaN), [max] returns NaN and every marker size passed to
    [ax.scatter] is NaN, those of the complete rows included. *)
Theorem nan_first_duration_blanks_all_sizes
    (clean : DataFrame) (marker_size : Q) (ax ax' : Axes)
    (first : label * list f64) (others : list (label * list f64)) :
  has_col clean "axp" && has_col clean "ayp" = true ->
  rows clean = first :: others ->
  getcell clean "stime" first = Ok NaN
  \/ getcell clean "etime" first = Ok NaN ->
  scatter_points clean marker_size ax = Ok ax' ->
  exists xs ys per_point,
    ax' = ax ++ [Scatter xs ys (PerPoint per_point)]
    /\ List.length per_point = List.length (rows clean)
    /\ forallb is_nan per_point = true.
Proof.
  intros Hfix Hrows Hnan H. unfold scatter_points in H. rewrite Hfix in H.
  destruct (fixation_duration clean (rows clean)) as [ds|] eqn:Hds;
    [|discriminate]. simpl in H.
  assert (Hlen := fixation_duration_length clean _ ds Hds).
  rewrite Hrows in Hds. simpl in Hds.
  destruct (getcell clean "etime" first) as [e|] eqn:He; [|discriminate].
  simpl in Hds.
  destruct (getcell clean "stime" first) as [st|] eqn:Hst; [|discriminate].
  simpl in Hds.
  destruct (fixation_duration clean others) as [ds'|]; [|discriminate].
  simpl in Hds. injection Hds as <-.
  rewrite f64_sub_nan in H.
  2:{ destruct Hnan as [Hn|Hn]; injection Hn as ->; auto. }
  rewrite py_max_nan_first in H. simpl in H.
  bind_cases H. injection H as <-.
  do 3 eexists. split; [reflexivity|]. split.
  - simpl. rewrite !length_map. simpl in Hlen. exact Hlen.
  - simpl. rewrite !map_map. apply forallb_forall.
    intros v Hv. apply in_map_iff in Hv as [d [<- _]]. now destruct d.
Qed.

Lemma nan_first_duration_blanks_all_sizes_witness :
  exists xs ys per_point,
    [Scatter [Fin 10; Fin 20] [Fin 5; Fin 5] (PerPoint [NaN; NaN])]
    = [] ++ [Scatter xs ys (PerPoint per_point)]
    /\ List.length per_point = 2%nat
    /\ forallb is_nan per_point = true.
Proof.
  apply (nan_first_duration_blanks_all_sizes
           (mkDataFrame fixation_columns
              [(0, [Fin 10; Fin 5; NaN; Fin 250]);
               (1, [Fin 20; Fin 5; Fin 300; Fin 400])])
           60 [] _ (0, [Fin 10; Fin 5; NaN; Fin 250])
           [(1, [Fin 20; Fin 5; Fin 300; Fin 400])]);
    try reflexivity.
  left. reflexivity.
Defined.

(** ** AOI outlines *)

Lemma overlay_one_appends (ax ax' : Axes) (a : aoi) :
  overlay_one ax a = Ok ax' ->
  (recognized a = false /\ ax' = ax)
  \/ (recognized a = true
      /\ exists d, define_aoi a = Ok d /\ ax' = ax ++ [outline d]).
Proof.
  unfold overlay_one, recognized, define_aoi.
  destruct (String.eqb (lower (shape a)) "rectangle").
  - destruct (coordinates a) as [|x1 [|x2 [|y1 [|y2 [|z l]]]]]; simpl;
      intros H; try discriminate. injection H as <-.
    right. split; [reflexivity|]. eexists. split; reflexivity.
  - destruct (String.eqb (lower (shape a)) "circle").
    + destruct (coordinates a) as [|cx [|cy [|r [|z l]]]];
        intros H; try discriminate. injection H as <-.
      right. split; [reflexivity|]. eexists. split; reflexivity.
    + intros H. injection H as <-. now left.
Qed.

Lemma overlay_loop_appends (aois : list aoi) :
  forall ax ax',
    overlay_loop ax aois = Ok ax' ->
    exists ds, define_all (filter recognized aois) = Ok ds
               /\ ax' = ax ++ map outline ds
               /\ List.length ds = List.length (filter recognized aois).
Proof.
  induction aois as [|a aois IH]; simpl; intros ax ax' H.
  - injection H as <-. exists []. simpl. now rewrite app_nil_r.
  - destruct (overlay_one ax a) as [ax1|] eqn:E1; [|discriminate].
    simpl in H. apply IH in H as [ds [Hds [-> Hlen]]].
    apply overlay_one_appends in E1 as [[Hr ->]|[Hr [d [Hd ->]]]];
      rewrite Hr.
    + now exists ds.
    + exists (d :: ds). simpl. rewrite Hd, Hds. simpl.
      rewrite <- app_assoc, Hlen. now repeat split.
Qed.

Lemma overlay_aoi_returns
    (validation : list aoi -> screen -> result unit)
    (aois : list aoi) (s : screen) (ax ax' : Axes) :
  overlay_aoi validation aois s ax = Ok ax' ->
  validation aois s = Ok tt
  /\ screen_dimensions_validation s = Ok tt
  /\ exists ds,
       define_all (filter recognized aois) = Ok ds
       /\ ax' = ax ++ map outline ds
       /\ List.length ds = List.length (filter recognized aois).
Proof.
  unfold overlay_aoi. intros H.
  destruct (validation aois s) as [[]|]; [|discriminate]. simpl in H.
  destruct (screen_dimensions_validation s) as [[]|]; [|discriminate].
  simpl in H. repeat split. now apply overlay_loop_appends.
Qed.

(** X8: [overlay_aoi] returns only when both validations passed, and then it
    has left what was on the axes in place and appended, in the order of
    the AOI list, the outline of each AOI of a recognized shape and nothing
    else: for a rectangle the closed five-point path through the [int()] of
    its four coordinates, for a circle the 100-point circle of its centre
    and radius. *)
Theorem overlay_aoi_appends_outlines
    (validation : list aoi -> screen -> result unit)
    (aois : list aoi) (s : screen) (ax ax' : Axes) :
  overlay_aoi validation aois s ax = Ok ax' ->
  validation aois s = Ok tt
  /\ screen_dimensions_validation s = Ok tt
  /\ exists ds,
       define_all (filter recognized aois) = Ok ds
       /\ ax' = ax ++ map outline ds
       /\ List.length ds = List.length (filter recognized aois).
Proof.
  intros H. apply overlay_aoi_returns in H as [Hv [Hs [ds Hds]]].
  split; [exact Hv | split; [exact Hs|]]. now exists ds.
Qed.

Lemma overlay_aoi_appends_outlines_witness :
  exists ds,
    define_all (filter recognized
                  (mkAoi "triangle" [1; 2; 3]%Q :: sample_aois))
    = Ok ds
    /\ [TickTop; PlotPolyline [10; 20; 20; 10; 10] [10; 10; 20; 20; 10];
        PlotCircle (101 # 2) 50 10 100]
       = [TickTop] ++ map outline ds
    /\ List.length ds = 2%nat.
Proof.
  apply (overlay_aoi_appends_outlines accept_aois
           (mkAoi "triangle" [1; 2; 3]%Q :: sample_aois) screen_100
           [TickTop]).
  reflexivity.
Defined.

(** X9: AOIs whose shape is neither rectangle nor circle are passed over
    without a word: the loop does on a list what it does on the list with
    those AOIs taken out. *)
Theorem overlay_loop_skips_unrecognized (aois : list aoi) (ax : Axes) :
  overlay_loop ax aois = overlay_loop ax (filter recognized aois).
Proof.
  revert ax. induction aois as [|a aois IH]; intros ax; simpl;
    [reflexivity|].
  destruct (recognized a) eqn:Hr; simpl.
  - destruct (overlay_one ax a); simpl; [apply IH | reflexivity].
  - assert (H1 : overlay_one ax a = Ok ax).
    { unfold overlay_one. unfold recognized in Hr.
      apply orb_false_iff in Hr as [-> ->]. reflexivity. }
    rewrite H1. simpl. apply IH.
Qed.

Lemma lower_ascii_idempotent (c : ascii) :
  lower_ascii (lower_ascii c) = lower_ascii c.
Proof. destruct c as [[] [] [] [] [] [] [] []]; reflexivity. Qed.

Lemma lower_idempotent (t : string) : lower (lower t) = lower t.
Proof.
  induction t as [|c t IH]; simpl; [reflexivity|].
  now rewrite lower_ascii_idempotent, IH.
Qed.

(** X10: the shape of an AOI is read without regard to case: writing every
    shape in lower case beforehand changes nothing of what the loop draws
    or raises. *)
Theorem overlay_loop_ignores_case (aois : list aoi) (ax : Axes) :
  overlay_loop ax (map lower_shape aois) = overlay_loop ax aois.
Proof.
  revert ax. induction aois as [|a aois IH]; intros ax; simpl;
    [reflexivity|].
  assert (H1 : overlay_one ax (lower_shape a) = overlay_one ax a).
  { unfold overlay_one, lower_shape. simpl.
    now rewrite lower_idempotent. }
  rewrite H1. destruct (overlay_one ax a); simpl; [apply IH | reflexivity].
Qed.

Lemma py_int_nonpos_ceiling (q : Q) : (q <= 0)%Q -> py_int q = Qceiling q.
Proof.
  destruct q as [n d]. unfold Qle, py_int, Qceiling, Qfloor. simpl.
  intros H. assert (Hn : n <= 0) by lia.
  replace n with (- (- n)) at 1 by lia.
  rewrite Z.quot_opp_l by lia. f_equal.
  apply Z.quot_div_nonneg; lia.
Qed.

(** X11: the [int()] applied to rectangle coordinates leaves whole numbers
    as they are, rounds a non-negative coordinate down and a non-positive
    one up: a rectangle given with whole-number coordinates is drawn
    exactly there, any other is drawn less than one pixel closer to the
    origin. *)
Theorem py_int_towards_zero (q : Q) (z : Z) :
  py_int (inject_Z z) = z
  /\ ((0 <= q)%Q ->
      (inject_Z (py_int q) <= q /\ q < inject_Z (py_int q + 1))%Q)
  /\ ((q <= 0)%Q ->
      (inject_Z (py_int q - 1) < q /\ q <= inject_Z (py_int q))%Q).
Proof.
  split; [|split].
  - unfold py_int, inject_Z. simpl. apply Z.quot_1_r.
  - intros H. rewrite (py_int_nonneg q H).
    split; [apply Qfloor_le | apply Qlt_floor].
  - intros H. rewrite (py_int_nonpos_ceiling q H).
    split; [apply Qceiling_lt | apply Qle_ceiling].
Qed.

Lemma py_int_towards_zero_witness :
  (inject_Z (py_int (41 # 2)) <= 41 # 2
   /\ 41 # 2 < inject_Z (py_int (41 # 2) + 1))%Q.
Proof.
  apply (py_int_towards_zero (41 # 2) 0). discriminate.
Defined.

(** ** The heat map's sample *)



Lemma heatmap_row_on_screen (s : screen) (i j : nat) (r : label * list f64) :
  not_na i j r && heatmap_keeps s i j r = true
  <-> exists x y,
        cell i r = Fin x /\ cell j r = Fin y
        /\ (0 <= x /\ x <= snd s /\ 0 <= y /\ y <= fst s)%Q.
Proof.
  unfold not_na, heatmap_keeps, f64_ge. destruct s as [h w]. simpl.
  destruct (cell i r) as [| |x|], (cell j r) as [| |y|]; simpl;
    try (split; [discriminate | intros [x' [y' [Hx [Hy _]]]]; discriminate]);
    try (rewrite ?andb_false_r;
         split; [discriminate | intros [x' [y' [Hx [Hy _]]]]; discriminate]).
  rewrite !andb_true_iff, !Qle_bool_iff. split.
  - intros [[[H1 H2] H3] H4]. exists x, y. tauto.
  - intros [x' [y' [Hx [Hy H]]]]. injection Hx as <-. injection Hy as <-.
    tauto.
Qed.

(** X13: whatever the index, the rows [plot_heatmap] counts are exactly the
    rows of the input whose two coordinates are finite numbers with
    0 <= x <= width and 0 <= y <= height, both bounds included; the columns
    are unchanged. *)
Theorem heatmap_filter_exact
    (df d : DataFrame) (s : screen) (i j : nat) :
  col_pos "xpos" (columns df) = Some i ->
  col_pos "ypos" (columns df) = Some j ->
  heatmap_filter df s = Ok d ->
  columns d = columns df
  /\ forall r,
       In r (rows d)
       <-> In r (rows df)
           /\ exists x y,
                cell i r = Fin x /\ cell j r = Fin y
                /\ (0 <= x /\ x <= snd s /\ 0 <= y /\ y <= fst s)%Q.
Proof.
  intros Hx Hy Hd. rewrite (heatmap_filter_rows df s i j Hx Hy) in Hd.
  injection Hd as <-. simpl. split; [reflexivity|]. intros r.
  rewrite filter_filter, filter_In, heatmap_row_on_screen. reflexivity.
Qed.

Lemma heatmap_filter_exact_witness :
  In (0, [Fin 100; Fin 50]) (rows edge_frame).
Proof.
  apply (heatmap_filter_exact edge_frame edge_frame screen_100 0 1
           eq_refl eq_refl eq_refl).
  split; [simpl; now left|].
  exists 100%Q, 50%Q. repeat split; discriminate.
Defined.

(** X14: filtering for the heat map a second time changes nothing, whatever
    the index: the mask selects rows by position. *)
Theorem heatmap_filter_idempotent (df d : DataFrame) (s : screen) :
  heatmap_filter df s = Ok d -> heatmap_filter d s = Ok d.
Proof.
  intros Hd.
  destruct (col_pos "xpos" (columns df)) as [i|] eqn:Hx.
  - destruct (col_pos "ypos" (columns df)) as [j|] eqn:Hy.
    + rewrite (heatmap_filter_rows df s i j Hx Hy) in Hd.
      injection Hd as <-.
      rewrite (heatmap_filter_rows
                 (mkDataFrame (columns df)
                    (filter (heatmap_keeps s i j)
                       (filter (not_na i j) (rows df)))) s i j Hx Hy).
      simpl. f_equal. f_equal.
      rewrite (filter_all (not_na i j)).
      * apply filter_all, forallb_filter_same.
      * apply forallb_forall. intros r Hr.
        apply filter_In in Hr as [Hr _]. now apply filter_In in Hr.
    + unfold heatmap_filter, dropna2 in Hd. rewrite Hx, Hy in Hd.
      discriminate.
  - unfold heatmap_filter, dropna2 in Hd. rewrite Hx in Hd. discriminate.
Qed.

Lemma heatmap_filter_idempotent_witness :
  heatmap_filter (mkDataFrame gaze_columns [(1, [Fin 10; Fin 10])]) screen_100
  = Ok (mkDataFrame gaze_columns [(1, [Fin 10; Fin 10])]).
Proof.
  apply (heatmap_filter_idempotent nan_frame). reflexivity.
Defined.

Lemma kept_by_scatter_kept_by_heatmap (s : screen) (i j : nat)
      (r : label * list f64) :
  scatter_drops s i j r = false -> not_na i j r = true ->
  heatmap_keeps s i j r = true.
Proof.
  unfold scatter_drops, heatmap_keeps, not_na, f64_ge.
  destruct s as [h w]. simpl.
  destruct (cell i r) as [| |x|], (cell j r) as [| |y|]; simpl;
    try discriminate; unfold Qltb;
    try (pose proof (Qle_bool_total x w));
    try (pose proof (Qle_bool_total y h));
    try (pose proof (Qle_bool_total x 0));
    try (pose proof (Qle_bool_total y 0));
    repeat match goal with
           | |- context [Qle_bool ?a ?b] => destruct (Qle_bool a b)
           | H : context [Qle_bool ?a ?b] |- _ => destruct (Qle_bool a b)
           end; simpl in *; try discriminate; try reflexivity.
Qed.

(** X15: on a gaze frame with the default index, every sample the scatter
    plot keeps and that has both coordinates is counted by the heat map:
    the heat map's screen filter is the weaker of the two. *)
Theorem scatter_kept_is_counted
    (df clean d : DataFrame) (s : screen) (i j : nat) :
  default_index df ->
  col_pos "xpos" (columns df) = Some i ->
  col_pos "ypos" (columns df) = Some j ->
  clean_data df s = Ok clean ->
  heatmap_filter df s = Ok d ->
  forall r, In r (rows clean) -> not_na i j r = true -> In r (rows d).
Proof.
  intros Hidx Hx Hy Hc Hd r Hr Hna.
  rewrite (heatmap_filter_rows df s i j Hx Hy) in Hd. injection Hd as <-.
  rewrite (clean_data_default_index df s i j Hidx) in Hc
    by (unfold coordinate_columns; now rewrite Hx, Hy).
  injection Hc as <-. simpl in *. apply filter_In in Hr as [Hin Hr].
  apply negb_true_iff in Hr.
  rewrite filter_filter. apply filter_In. split; [exact Hin|].
  rewrite Hna. simpl. now apply kept_by_scatter_kept_by_heatmap.
Qed.

Lemma scatter_kept_is_counted_witness :
  In (1, [Fin 10; Fin 10])
     (rows (mkDataFrame gaze_columns [(1, [Fin 10; Fin 10])])).
Proof.
  apply (scatter_kept_is_counted nan_frame nan_frame
           (mkDataFrame gaze_columns [(1, [Fin 10; Fin 10])])
           screen_100 0 1); try reflexivity.
  simpl. right. now left.
Defined.

(** ** The heat map as a whole *)

Lemma np_histogram2d_sample (limits : numpy_limits) (x y : list f64)
      (bx by_ : pyval) (h : histogram) :
  np_histogram2d limits x y bx by_ = Ok h -> hist_x h = x /\ hist_y h = y.
Proof.
  unfold np_histogram2d. intros H. bind_cases H.
  destruct (bincount_limit limits _ _); [discriminate|].
  injection H as <-. now split.
Qed.

(** X16: when [plot_heatmap] returns, the axes carry, in this order: the
    image of the histogram of the filtered frame's coordinates with extent
    (0, width, height, 0), the colour bar and the tick setting; then the
    AOI outlines, one per AOI of a recognized shape and none without AOI
    definitions; then the two axis labels. *)
Theorem plot_heatmap_layout
    (validation : list aoi -> screen -> result unit) (limits : numpy_limits)
    (df : DataFrame) (s : screen) (aoi_definitions : option (list aoi))
    (bins : pyval) (ax : Axes) :
  plot_heatmap validation limits df s aoi_definitions bins = Ok ax ->
  exists d h ds,
    heatmap_filter df s = Ok d
    /\ getcol d "xpos" = Ok (hist_x h)
    /\ getcol d "ypos" = Ok (hist_y h)
    /\ ax = heatmap_image h s ++ map outline ds ++ heatmap_labels
    /\ match aoi_definitions with
       | None => ds = []
       | Some aois =>
           List.length ds = List.length (filter recognized aois)
       end.
Proof.
  unfold plot_heatmap. intros H.
  destruct (heatmap_filter df s) as [d|]; [|discriminate]. simpl in H.
  destruct s as [h w].
  destruct (determine_bins bins (h, w)) as [[bx by_]|]; [|discriminate].
  simpl in H.
  destruct (getcol d "xpos") as [x|] eqn:Ex; [|discriminate]. simpl in H.
  destruct (getcol d "ypos") as [y|] eqn:Ey; [|discriminate]. simpl in H.
  destruct (np_histogram2d limits x y bx by_) as [hist|] eqn:Eh;
    [|discriminate].
  simpl in H. apply np_histogram2d_sample in Eh as [<- <-].
  destruct aoi_definitions as [aois|].
  - destruct (overlay_aoi validation aois (h, w) _) as [ax1|] eqn:Eo;
      [|discriminate].
    simpl in H. injection H as <-.
    apply overlay_aoi_returns in Eo as [_ [_ [ds [_ [-> Hlen]]]]].
    exists d, hist, ds.
    split; [reflexivity | split; [exact Ex | split; [exact Ey | split]]].
    + unfold heatmap_image, heatmap_labels, subplots.
      rewrite <- ?app_assoc. reflexivity.
    + exact Hlen.
  - simpl in H. injection H as <-. exists d, hist, [].
    split; [reflexivity | split; [exact Ex | split; [exact Ey | split]]];
      reflexivity.
Qed.

Lemma plot_heatmap_layout_witness :
  exists d h ds,
    heatmap_filter edge_frame screen_100 = Ok d
    /\ getcol d "xpos" = Ok (hist_x h)
    /\ getcol d "ypos" = Ok (hist_y h)
    /\ [Imshow (mkHistogram (Uniform 5) (Uniform 5) [Fin 100] [Fin 50])
          (0, 100, 100, 0)%Q;
        Colorbar "Count"; TickTop;
        PlotPolyline [10; 20; 20; 10; 10] [10; 10; 20; 20; 10];
        PlotCircle (101 # 2) 50 10 100;
        SetXlabel "X Position (pixels)"; SetYlabel "Y Position (pixels)"]
       = heatmap_image h screen_100 ++ map outline ds ++ heatmap_labels
    /\ List.length ds = 2%nat.
Proof.
  apply (plot_heatmap_layout accept_aois small_machine edge_frame screen_100
           (Some sample_aois) PNone).
  vm_compute. reflexivity.
Defined.

(** X17: [plot_heatmap] itself never validates the screen.  On a frame with
    gaze columns, with an integer [bins] and no AOI definitions, it returns
    exactly when [bins] is at least 1 and numpy can build the bin edges and
    the count matrix, for every screen, one of non-positive dimensions
    included; below 1 it raises numpy's ValueError, and from 1 on what numpy
    raises when it cannot build the edges.  With AOI definitions an invalid
    screen makes it raise, through [overlay_aoi]. *)
Theorem plot_heatmap_integer_bins_iff
    (validation : list aoi -> screen -> result unit) (limits : numpy_limits)
    (df : DataFrame) (s : screen) (i j : nat) (n : Z) :
  col_pos "xpos" (columns df) = Some i ->
  col_pos "ypos" (columns df) = Some j ->
  (succeeds (plot_heatmap validation limits df s None (PInt n))
   <-> 1 <= n /\ linspace_limit limits n = None
       /\ bincount_limit limits (n + 2) (n + 2) = None)
  /\ (n < 1 ->
      plot_heatmap validation limits df s None (PInt n)
      = Raise bins_not_positive)
  /\ (forall e, 1 <= n -> linspace_limit limits n = Some e ->
      plot_heatmap validation limits df s None (PInt n)
      = Raise (resource_exn e))
  /\ (forall e, 1 <= n -> linspace_limit limits n = None ->
      bincount_limit limits (n + 2) (n + 2) = Some e ->
      plot_heatmap validation limits df s None (PInt n)
      = Raise (resource_exn e))
  /\ (forall aois bins,
        screen_dimensions_validation s <> Ok tt ->
        is_ok (plot_heatmap validation limits df s (Some aois) bins) = false).
Proof.
  intros Hx Hy.
  assert (Hd := heatmap_filter_rows df s i j Hx Hy).
  assert (Hb : determine_bins (PInt n) s = Ok (PInt n, PInt n))
    by (destruct s; reflexivity).
  assert (Hp := plot_heatmap_integer_bins validation limits df _ s i j
                  (PInt n) n n Hx Hy Hd Hb).
  split; [|split; [|split; [|split]]].
  - rewrite Hp. destruct (n <? 1) eqn:E.
    + apply Z.ltb_lt in E. split; [intros [a Ha]; discriminate | lia].
    + apply Z.ltb_ge in E.
      destruct (linspace_limit limits n) as [e|].
      * split; [intros [a Ha]; discriminate | intros [_ [H _]]; discriminate].
      * destruct (bincount_limit limits (n + 2) (n + 2)) as [e|].
        -- split; [intros [a Ha]; discriminate
                  | intros [_ [_ H]]; discriminate].
        -- split; [intros _; now repeat split
                  | intros _; eexists; reflexivity].
  - intros Hn. rewrite Hp. apply Z.ltb_lt in Hn. now rewrite Hn.
  - intros e Hn He. rewrite Hp, He. apply Z.ltb_ge in Hn. now rewrite Hn.
  - intros e Hn Hl He. rewrite Hp, Hl, He. apply Z.ltb_ge in Hn.
    now rewrite Hn.
  - intros aois bins Hs.
    destruct (plot_heatmap validation limits df s (Some aois) bins)
      as [ax|] eqn:E; [|reflexivity].
    exfalso. unfold plot_heatmap in E.
    destruct (heatmap_filter df s) as [d|]; [|discriminate]. simpl in E.
    destruct s as [h w].
    destruct (determine_bins bins (h, w)) as [[bx by_]|]; [|discriminate].
    simpl in E.
    destruct (getcol d "xpos") as [x|]; [|discriminate]. simpl in E.
    destruct (getcol d "ypos") as [y|]; [|discriminate]. simpl in E.
    destruct (np_histogram2d limits x y bx by_) as [hist|]; [|discriminate].
    simpl in E.
    destruct (overlay_aoi validation aois (h, w) _) as [ax1|] eqn:Eo;
      [|discriminate].
    apply overlay_aoi_returns in Eo as [_ [Hok _]]. now apply Hs.
Qed.

Lemma plot_heatmap_integer_bins_iff_witness :
  succeeds (plot_heatmap accept_aois small_machine edge_frame (-1, -1)%Q None
              (PInt 3))
  /\ plot_heatmap accept_aois small_machine edge_frame (-1, -1)%Q None
       (PInt 0)
     = Raise bins_not_positive
  /\ plot_heatmap accept_aois small_machine edge_frame (-1, -1)%Q None
       (PInt (2 ^ 31))
     = Raise (MemoryError "Unable to allocate array")
  /\ is_ok (plot_heatmap accept_aois small_machine edge_frame (-1, -1)%Q
              (Some sample_aois) (PInt 3)) = false.
Proof.
  destruct (plot_heatmap_integer_bins_iff accept_aois small_machine
              edge_frame (-1, -1)%Q 0 1 3 eq_refl eq_refl)
    as [H3 [_ [_ [_ Hs]]]].
  destruct (plot_heatmap_integer_bins_iff accept_aois small_machine
              edge_frame (-1, -1)%Q 0 1 0 eq_refl eq_refl) as [_ [H0 _]].
  destruct (plot_heatmap_integer_bins_iff accept_aois small_machine
              edge_frame (-1, -1)%Q 0 1 (2 ^ 31) eq_refl eq_refl)
    as [_ [_ [Hbig _]]].
  split; [apply H3; repeat split; lia | split; [apply H0; lia | split]].
  - apply (Hbig OutOfMemory); [lia | reflexivity].
  - apply Hs. discriminate.
Defined.

(** ** The package's imports *)

Lemma from_import_bound (module names : list string) :
  (exists l, from_import module names = Bound l)
  <-> forall n, In n names -> In n module.
Proof.
  induction names as [|n names IH]; simpl.
  - split; [intros _ m [] | intros _; now exists []].
  - destruct (existsb (String.eqb n) module) eqn:E.
    + apply existsb_exists in E as [m [Hm Heq]]. apply String.eqb_eq in Heq.
      subst m. split.
      * intros [l Hl] k [<-|Hk]; [exact Hm|].
        apply IH; [|exact Hk].
        destruct (from_import module names) as [l'|]; [|discriminate].
        now exists l'.
      * intros H.
        destruct IH as [_ IH]. destruct IH as [l' ->]; [auto|]. eauto.
    + split; [intros [l Hl]; discriminate|].
      intros H. exfalso.
      assert (Hin : In n module) by auto.
      apply not_true_iff_false in E. apply E, existsb_exists.
      exists n. split; [exact Hin | apply String.eqb_refl].
Qed.

(** X18: importing the package fails at line 3 of __init__.py: the name
    [overylay_aoi] is asked of plotting.py, which defines [overlay_aoi];
    a [from ... import] succeeds exactly when the module binds every name
    asked for, and with the function's name as plotting.py spells it the
    line binds all three. *)
Theorem init_import_fails :
  init_imports_plotting = ImportError "overylay_aoi"
  /\ ~ (forall n,
          In n ["plot_as_scatter"; "overylay_aoi"; "plot_heatmap"]%string ->
          In n plotting_names)
  /\ from_import plotting_names
       ["plot_as_scatter"; "overlay_aoi"; "plot_heatmap"]%string
     = Bound ["plot_as_scatter"; "overlay_aoi"; "plot_heatmap"]%string.
Proof.
  split; [reflexivity | split; [|reflexivity]].
  intros H. apply from_import_bound in H as [l Hl].
  change (init_imports_plotting = Bound l) in Hl. discriminate.
Qed.
